(** * TitanAI session orchestrator: workout state machine, rest timer,
      tool-call bridge and playback interruption

    A shallow embedding of [src/App.tsx] and [src/types.ts].

    The component is a set of callbacks that read and write React state
    cells and refs and call into the browser and the remote session.  The
    embedding keeps that shape:

    - [World] holds the state cells ([useState]), the refs ([useRef]) and
      what the platform keeps on the component's behalf: the calls made on
      the remote session object, the pending [setTimeout] callbacks, the
      live [setInterval] timers with the [remaining] variable of their
      closures, the [stop()] calls made on audio nodes.
    - A callback is a computation in [M], a state monad over [World] in
      which a JavaScript exception aborts the computation and keeps the
      world as it was when it was raised.
    - A callback sees the props and state of the render that created it.
      Those captured values are explicit: [Closure].
    - JavaScript numbers are modelled on their integer values, as [Z].
    - A functional update [setX(prev => ...)] runs its updater once, on the
      value current at the call.  An exception raised by the updater does
      not reach the caller of [setX]: React raises it again while it
      renders, which [renderError] records.
    - [services/workoutService] is a collaborator of [App];
      [adjustExerciseByDifficulty] is a parameter of the development. *)

From Stdlib Require Import ZArith QArith String List Lia Bool DecimalString.
From Stdlib Require Import Qminmax.
From stdpp Require Import gmap strings list fin_maps.

Local Open Scope string_scope.
Local Open Scope Z_scope.

(** ** Data model ([src/types.ts]) *)

Inductive Difficulty := EASY | MEDIUM | HARD.

Definition Difficulty_value (d : Difficulty) : string :=
  match d with
  | EASY => "Easy"
  | MEDIUM => "Moderate"
  | HARD => "Challenging"
  end.

(** [id] and [name] carry a prefix: both [Exercise] and [WorkoutSession]
    have an [id]. *)
Record Exercise := mkExercise {
  ex_id : string;
  ex_name : string;
  muscleGroup : string;
  description : string;
  targetReps : Z;
  targetSets : Z;
  restSeconds : Z;
  difficulty : option Difficulty
}.

Record SetLog := mkSetLog {
  reps : Z;
  weight : option Z;
  rpe : option Z
}.

Record ExerciseLog := mkExerciseLog {
  exerciseId : string;
  sets : list SetLog
}.

Record WorkoutSession := mkWorkoutSession {
  ws_id : string;
  ws_date : string;
  ws_exercises : list ExerciseLog
}.

Record WorkoutState := mkWorkoutState {
  isActive : bool;
  currentExerciseIndex : Z;
  currentSet : Z;
  timer : Z;
  isResting : bool
}.

(** ** JavaScript values the callbacks rely on *)

Inductive JsError := TypeError | RangeError.

(** [arr[i]]: [undefined] outside [0 .. length-1]. *)
Definition js_index {A : Type} (arr : list A) (i : Z) : option A :=
  if 0 <=? i then arr !! Z.to_nat i else None.

(** [x === 'lit'] for an [x] that is a string or [undefined]. *)
Definition strict_eq (x : option string) (lit : string) : bool :=
  match x with
  | Some s => String.eqb s lit
  | None => false
  end.

(** Truthiness of a [number | null] ref. *)
Definition truthy_handle (r : option Z) : bool :=
  match r with
  | Some h => negb (h =? 0)
  | None => false
  end.

(** [`${n}`] for an integer-valued number. *)
Definition string_of_Z (n : Z) : string := NilZero.string_of_int (Z.to_int n).

(** [`${x}`] for a string or [undefined]. *)
Definition string_of_value (x : option string) : string :=
  match x with
  | Some s => s
  | None => "undefined"
  end.

(** ** The world of one mounted component *)

(** Calls made on a remote session object. *)
Inductive SessionCall :=
  | Close
  | SendRealtimeInput (text : string)
  | SendToolResponse (id name result : string).

(** A pending [setTimeout(stopWorkout, ms)]; [exs] is the [activeExercises]
    captured by that [stopWorkout]. *)
Inductive Timeout :=
  | StopWorkoutAfter (ms : Z) (exs : list Exercise).

(** What [Date.now().toString()] and [new Date().toISOString()] give when
    a history record is built. *)
Record Clock := mkClock {
  nowString : string;
  isoString : string
}.

Record World := mkWorld {
  (* useState *)
  isWorkoutActive : bool;
  workoutState : WorkoutState;
  activeExercises : list Exercise;
  history : list WorkoutSession;
  isModelSpeaking : bool;
  (* useRef *)
  nextStartTimeRef : Q;
  sourcesRef : gset nat;
  sessionRef : option nat;
  timerIntervalRef : option Z;
  (* platform *)
  renderError : option JsError;
  sessionCalls : list (nat * SessionCall);
  timeouts : list Timeout;
  intervals : gmap Z Z;
  nextHandle : Z;
  stopCalls : list nat;
  speakingCalls : list bool
}.

(** Field updates: [with_f v w] is [w] with field [f] set to [v]. *)

Definition with_isWorkoutActive (v : bool) (w : World) : World :=
  mkWorld v (workoutState w) (activeExercises w) (history w)
    (isModelSpeaking w) (nextStartTimeRef w) (sourcesRef w) (sessionRef w)
    (timerIntervalRef w) (renderError w) (sessionCalls w) (timeouts w)
    (intervals w) (nextHandle w) (stopCalls w) (speakingCalls w).
Definition with_workoutState (v : WorkoutState) (w : World) : World :=
  mkWorld (isWorkoutActive w) v (activeExercises w) (history w)
    (isModelSpeaking w) (nextStartTimeRef w) (sourcesRef w) (sessionRef w)
    (timerIntervalRef w) (renderError w) (sessionCalls w) (timeouts w)
    (intervals w) (nextHandle w) (stopCalls w) (speakingCalls w).
Definition with_activeExercises (v : list Exercise) (w : World) : World :=
  mkWorld (isWorkoutActive w) (workoutState w) v (history w)
    (isModelSpeaking w) (nextStartTimeRef w) (sourcesRef w) (sessionRef w)
    (timerIntervalRef w) (renderError w) (sessionCalls w) (timeouts w)
    (intervals w) (nextHandle w) (stopCalls w) (speakingCalls w).
Definition with_history (v : list WorkoutSession) (w : World) : World :=
  mkWorld (isWorkoutActive w) (workoutState w) (activeExercises w) v
    (isModelSpeaking w) (nextStartTimeRef w) (sourcesRef w) (sessionRef w)
    (timerIntervalRef w) (renderError w) (sessionCalls w) (timeouts w)
    (intervals w) (nextHandle w) (stopCalls w) (speakingCalls w).
Definition with_isModelSpeaking (v : bool) (w : World) : World :=
  mkWorld (isWorkoutActive w) (workoutState w) (activeExercises w)
    (history w) v (nextStartTimeRef w) (sourcesRef w) (sessionRef w)
    (timerIntervalRef w) (renderError w) (sessionCalls w) (timeouts w)
    (intervals w) (nextHandle w) (stopCalls w) (speakingCalls w).
Definition with_nextStartTimeRef (v : Q) (w : World) : World :=
  mkWorld (isWorkoutActive w) (workoutState w) (activeExercises w)
    (history w) (isModelSpeaking w) v (sourcesRef w) (sessionRef w)
    (timerIntervalRef w) (renderError w) (sessionCalls w) (timeouts w)
    (intervals w) (nextHandle w) (stopCalls w) (speakingCalls w).
Definition with_sourcesRef (v : gset nat) (w : World) : World :=
  mkWorld (isWorkoutActive w) (workoutState w) (activeExercises w)
    (history w) (isModelSpeaking w) (nextStartTimeRef w) v (sessionRef w)
    (timerIntervalRef w) (renderError w) (sessionCalls w) (timeouts w)
    (intervals w) (nextHandle w) (stopCalls w) (speakingCalls w).
Definition with_sessionRef (v : option nat) (w : World) : World :=
  mkWorld (isWorkoutActive w) (workoutState w) (activeExercises w)
    (history w) (isModelSpeaking w) (nextStartTimeRef w) (sourcesRef w) v
    (timerIntervalRef w) (renderError w) (sessionCalls w) (timeouts w)
    (intervals w) (nextHandle w) (stopCalls w) (speakingCalls w).
Definition with_timerIntervalRef (v : option Z) (w : World) : World :=
  mkWorld (isWorkoutActive w) (workoutState w) (activeExercises w)
    (history w) (isModelSpeaking w) (nextStartTimeRef w) (sourcesRef w)
    (sessionRef w) v (renderError w) (sessionCalls w) (timeouts w)
    (intervals w) (nextHandle w) (stopCalls w) (speakingCalls w).
Definition with_renderError (v : option JsError) (w : World) : World :=
  mkWorld (isWorkoutActive w) (workoutState w) (activeExercises w)
    (history w) (isModelSpeaking w) (nextStartTimeRef w) (sourcesRef w)
    (sessionRef w) (timerIntervalRef w) v (sessionCalls w) (timeouts w)
    (intervals w) (nextHandle w) (stopCalls w) (speakingCalls w).
Definition with_sessionCalls (v : list (nat * SessionCall)) (w : World) : World :=
  mkWorld (isWorkoutActive w) (workoutState w) (activeExercises w)
    (history w) (isModelSpeaking w) (nextStartTimeRef w) (sourcesRef w)
    (sessionRef w) (timerIntervalRef w) (renderError w) v (timeouts w)
    (intervals w) (nextHandle w) (stopCalls w) (speakingCalls w).
Definition with_timeouts (v : list Timeout) (w : World) : World :=
  mkWorld (isWorkoutActive w) (workoutState w) (activeExercises w)
    (history w) (isModelSpeaking w) (nextStartTimeRef w) (sourcesRef w)
    (sessionRef w) (timerIntervalRef w) (renderError w) (sessionCalls w) v
    (intervals w) (nextHandle w) (stopCalls w) (speakingCalls w).
Definition with_intervals (v : gmap Z Z) (w : World) : World :=
  mkWorld (isWorkoutActive w) (workoutState w) (activeExercises w)
    (history w) (isModelSpeaking w) (nextStartTimeRef w) (sourcesRef w)
    (sessionRef w) (timerIntervalRef w) (renderError w) (sessionCalls w)
    (timeouts w) v (nextHandle w) (stopCalls w) (speakingCalls w).
Definition with_nextHandle (v : Z) (w : World) : World :=
  mkWorld (isWorkoutActive w) (workoutState w) (activeExercises w)
    (history w) (isModelSpeaking w) (nextStartTimeRef w) (sourcesRef w)
    (sessionRef w) (timerIntervalRef w) (renderError w) (sessionCalls w)
    (timeouts w) (intervals w) v (stopCalls w) (speakingCalls w).
Definition with_stopCalls (v : list nat) (w : World) : World :=
  mkWorld (isWorkoutActive w) (workoutState w) (activeExercises w)
    (history w) (isModelSpeaking w) (nextStartTimeRef w) (sourcesRef w)
    (sessionRef w) (timerIntervalRef w) (renderError w) (sessionCalls w)
    (timeouts w) (intervals w) (nextHandle w) v (speakingCalls w).
Definition with_speakingCalls (v : list bool) (w : World) : World :=
  mkWorld (isWorkoutActive w) (workoutState w) (activeExercises w)
    (history w) (isModelSpeaking w) (nextStartTimeRef w) (sourcesRef w)
    (sessionRef w) (timerIntervalRef w) (renderError w) (sessionCalls w)
    (timeouts w) (intervals w) (nextHandle w) (stopCalls w) v.


(** ** Callbacks as computations *)

Inductive Outcome (A : Type) :=
  | Returned (a : A) (w : World)
  | Threw (e : JsError) (w : World).
Arguments Returned {A} a w.
Arguments Threw {A} e w.

(** The world a computation leaves behind, however it ended. *)
Definition world_of {A : Type} (o : Outcome A) : World :=
  match o with
  | Returned _ w => w
  | Threw _ w => w
  end.

Definition returns {A : Type} (o : Outcome A) : bool :=
  match o with
  | Returned _ _ => true
  | Threw _ _ => false
  end.

Definition M (A : Type) : Type := World -> Outcome A.

Definition ret {A : Type} (a : A) : M A := fun w => Returned a w.

Definition bind {A B : Type} (c : M A) (k : A -> M B) : M B :=
  fun w =>
    match c w with
    | Returned a w' => k a w'
    | Threw e w' => Threw e w'
    end.

Definition throw {A : Type} (e : JsError) : M A := fun w => Threw e w.

Definition gets {A : Type} (f : World -> A) : M A := fun w => Returned (f w) w.

Definition modify (f : World -> World) : M unit := fun w => Returned tt (f w).

Declare Scope js_scope.
Delimit Scope js_scope with js.
Notation "'let*' x ':=' c 'in' k" := (bind c (fun x => k))
  (at level 10, x name, c at level 100, k at level 200) : js_scope.
Notation "c1 ';;;' c2" := (bind c1 (fun _ => c2))
  (at level 100, c2 at level 200, right associativity) : js_scope.
Local Open Scope js_scope.

Fixpoint forEach {A : Type} (f : A -> M unit) (l : list A) : M unit :=
  match l with
  | [] => ret tt
  | x :: l' => f x ;;; forEach f l'
  end.

Fixpoint mapM {A B : Type} (f : A -> M B) (l : list A) : M (list B) :=
  match l with
  | [] => ret []
  | x :: l' =>
      let* y := f x in
      let* ys := mapM f l' in
      ret (y :: ys)
  end.

(** [x.field] where [x] may be [undefined]. *)
Definition deref {A : Type} (x : option A) : M A :=
  match x with
  | Some a => ret a
  | None => throw TypeError
  end.

(** [Array(n).fill(x)]: [Array(n)] raises [RangeError] unless [n] is an
    integer in [0 .. 2^32-1]. *)
Definition Array_fill {A : Type} (n : Z) (x : A) : M (list A) :=
  if (0 <=? n) && (n <? 2 ^ 32) then ret (replicate (Z.to_nat n) x)
  else throw RangeError.

(** *** State setters *)

(** [setWorkoutState(prev => ...)]. *)
Definition setWorkoutState (updater : WorkoutState -> M WorkoutState) : M unit :=
  fun w =>
    match updater (workoutState w) w with
    | Returned s' w' => Returned tt (with_workoutState s' w')
    | Threw e w' => Returned tt (with_renderError (Some e) w')
    end.

Definition setIsWorkoutActive (b : bool) : M unit :=
  modify (with_isWorkoutActive b).

Definition setActiveExercises (updater : list Exercise -> list Exercise) : M unit :=
  modify (fun w => with_activeExercises (updater (activeExercises w)) w).

Definition setHistory (updater : list WorkoutSession -> list WorkoutSession) : M unit :=
  modify (fun w => with_history (updater (history w)) w).

Definition setIsModelSpeaking (b : bool) : M unit :=
  modify (fun w =>
    with_isModelSpeaking b (with_speakingCalls (speakingCalls w ++ [b]) w)).

(** *** Platform calls *)

(** A method call on session object [s]. *)
Definition sessionCall (s : nat) (c : SessionCall) : M unit :=
  modify (fun w => with_sessionCalls (sessionCalls w ++ [(s, c)]) w).

Definition clearInterval (r : option Z) : M unit :=
  match r with
  | Some h => modify (fun w => with_intervals (delete h (intervals w)) w)
  | None => ret tt
  end.

(** [window.setInterval(tick, 1000)] for a tick closure whose [remaining]
    starts at [remaining]; returns the new handle. *)
Definition setInterval (remaining : Z) : M Z :=
  fun w =>
    let h := nextHandle w in
    Returned h (with_nextHandle (h + 1) (with_intervals (<[h := remaining]> (intervals w)) w)).

Definition setTimeout (t : Timeout) : M unit :=
  modify (fun w => with_timeouts (timeouts w ++ [t]) w).

(** ** The callbacks of [App] ([src/App.tsx]) *)

(** What a callback captured from the render that created it:
    [activeExercises], [workoutState.currentExerciseIndex] and, for the
    session callbacks, the session object [sessionPromise] resolves to. *)
Record Closure := mkClosure {
  cl_activeExercises : list Exercise;
  cl_currentExerciseIndex : Z;
  cl_sessionPromise : nat
}.

(** The callback [stopWorkout] maps over the exercises (lines 67-70). *)
Definition stopWorkout_log (ex : Exercise) : M ExerciseLog :=
  let* filled := Array_fill (targetSets ex) (mkSetLog (targetReps ex) None None) in
  ret (mkExerciseLog (ex_id ex) filled).

(** [stopWorkout] (lines 55-73); [exs] is its captured [activeExercises]. *)
Definition stopWorkout (exs : list Exercise) (clk : Clock) : M unit :=
  setIsWorkoutActive false ;;;
  setWorkoutState (fun prev =>
    ret (mkWorkoutState false (currentExerciseIndex prev) (currentSet prev)
           (timer prev) (isResting prev))) ;;;
  (let* s := gets sessionRef in
   match s with
   | Some sess =>
       sessionCall sess Close ;;;
       modify (with_sessionRef None)
   | None => ret tt
   end) ;;;
  (let* r := gets timerIntervalRef in
   if truthy_handle r then clearInterval r else ret tt) ;;;
  let* logs := mapM stopWorkout_log exs in
  let newSession := mkWorkoutSession (nowString clk) (isoString clk) logs in
  setHistory (fun prev => newSession :: prev).

(** [startRestTimer] (lines 234-245), up to the [setInterval] call. *)
Definition startRestTimer (seconds : Z) : M unit :=
  (let* r := gets timerIntervalRef in
   if truthy_handle r then clearInterval r else ret tt) ;;;
  let* h := setInterval seconds in
  modify (with_timerIntervalRef (Some h)).

(** One firing of the interval callback of [startRestTimer] (lines
    237-244) for the interval with handle [h].  A cleared interval does
    not fire. *)
Definition restTimerTick (h : Z) : M unit :=
  let* live := gets (fun w => intervals w !! h) in
  match live with
  | None => ret tt
  | Some before =>
      let remaining := before - 1 in
      modify (fun w => with_intervals (<[h := remaining]> (intervals w)) w) ;;;
      setWorkoutState (fun prev =>
        ret (mkWorkoutState (isActive prev) (currentExerciseIndex prev)
               (currentSet prev) remaining (isResting prev))) ;;;
      if remaining <=? 0 then
        (let* r := gets timerIntervalRef in clearInterval r) ;;;
        setWorkoutState (fun prev =>
          ret (mkWorkoutState (isActive prev) (currentExerciseIndex prev)
                 (currentSet prev) (timer prev) false))
      else ret tt
  end.

(** The updater [handleTrainerAction] passes to [setWorkoutState] (lines
    215-231). *)
Definition handleTrainerAction_updater (cl : Closure) (action : option string)
    (prev : WorkoutState) : M WorkoutState :=
  let currentEx := js_index (cl_activeExercises cl) (currentExerciseIndex prev) in
  if strict_eq action "finish_set" then
    let* ex := deref currentEx in
    let isLastSet := currentSet prev >=? targetSets ex in
    if isLastSet then
      let isLastEx :=
        currentExerciseIndex prev >=? Z.of_nat (length (cl_activeExercises cl)) - 1 in
      if isLastEx then
        setTimeout (StopWorkoutAfter 2000 (cl_activeExercises cl)) ;;;
        ret (mkWorkoutState false (currentExerciseIndex prev) (currentSet prev)
               (timer prev) (isResting prev))
      else
        ret (mkWorkoutState (isActive prev) (currentExerciseIndex prev + 1) 1 0 false)
    else
      startRestTimer (restSeconds ex) ;;;
      ret (mkWorkoutState (isActive prev) (currentExerciseIndex prev)
             (currentSet prev + 1) (restSeconds ex) true)
  else ret prev.

(** [handleTrainerAction] (lines 214-232). *)
Definition handleTrainerAction (cl : Closure) (action : option string) : M unit :=
  setWorkoutState (handleTrainerAction_updater cl action).

(** A pending timeout comes due: it leaves the queue and its callback
    runs. *)
Definition fireTimeout (i : nat) (clk : Clock) : M unit :=
  let* pending := gets timeouts in
  match pending !! i with
  | Some (StopWorkoutAfter _ exs) =>
      modify (with_timeouts (take i pending ++ drop (S i) pending)) ;;;
      stopWorkout exs clk
  | None => ret tt
  end.

(** [source.onended] (lines 174-177) for the audio node [src]. *)
Definition source_onended (src : nat) : M unit :=
  modify (fun w => with_sourcesRef (sourcesRef w ∖ {[src]}) w) ;;;
  let* tracked := gets sourcesRef in
  if (size tracked =? 0)%nat then setIsModelSpeaking false else ret tt.

(** The [interrupted] block of [onmessage] (lines 199-204).  The code
    visits the tracked nodes in the order they were added; a [gset] keeps
    no such order, so [elements] stands for it and nothing below depends
    on the order of the [stop()] calls. *)
Definition onmessage_interrupted (interrupted : bool) : M unit :=
  if interrupted then
    (let* tracked := gets sourcesRef in
     forEach (fun s => modify (fun w => with_stopCalls (stopCalls w ++ [s]) w))
             (elements tracked)) ;;;
    modify (with_sourcesRef ∅) ;;;
    modify (with_nextStartTimeRef 0%Q) ;;;
    setIsModelSpeaking false
  else ret tt.

(** The actions the tool declaration [controlTrainer] offers the agent in
    the description of its [action] parameter (line 116). *)
Definition controlTrainer_actions : list string :=
  ["finish_set"; "next_exercise"; "set_difficulty"].

(** A function call of a tool-call message. *)
Record FunctionCall := mkFunctionCall {
  fc_id : string;
  fc_name : string;
  fc_args : gmap string string
}.

Section Collaborators.

(** [adjustExerciseByDifficulty] of [services/workoutService].  Its
    difficulty argument reaches it through the cast [value as
    Difficulty]: at run time it is whatever string the agent sent, or
    [undefined]. *)
Variable adjustExerciseByDifficulty : Exercise -> option string -> Exercise.

(** What the same function does when its first argument is [undefined]:
    the exercise it returns, or [None] when it raises. *)
Variable adjustUndefined : option string -> option Exercise.

(** [handleDifficultyChange] (lines 75-93). *)
Definition handleDifficultyChange (cl : Closure) (newDifficulty : option string) : M unit :=
  setActiveExercises (fun prev =>
    let updated := prev in
    let currentIdx := cl_currentExerciseIndex cl in
    match js_index updated currentIdx with
    | Some ex =>
        <[Z.to_nat currentIdx := adjustExerciseByDifficulty ex newDifficulty]> updated
    | None => updated
    end) ;;;
  let* s := gets sessionRef in
  match s with
  | Some sess =>
      let currentEx := js_index (cl_activeExercises cl) (cl_currentExerciseIndex cl) in
      let* updatedEx :=
        match currentEx with
        | Some ex => ret (adjustExerciseByDifficulty ex newDifficulty)
        | None => deref (adjustUndefined newDifficulty)
        end in
      sessionCall sess
        (SendRealtimeInput
           ("The user changed difficulty to " ++ string_of_value newDifficulty
            ++ ". New goals: " ++ string_of_Z (targetReps updatedEx)
            ++ " reps, " ++ string_of_Z (targetSets updatedEx) ++ " sets."))
  | None => ret tt
  end.

(** Whether [handleDifficultyChange] raises on function call [fc] when
    [sessionRef] holds [sess]: it does when it goes on to inform the
    model, finds no current exercise among the captured ones and the
    collaborator raises on [undefined]. *)
Definition notificationRaises (cl : Closure) (sess : option nat) (fc : FunctionCall) : bool :=
  String.eqb (fc_name fc) "updateWorkoutState"
  && strict_eq (fc_args fc !! "action") "set_difficulty"
  && (if sess is Some _ then true else false)
  && (if js_index (cl_activeExercises cl) (cl_currentExerciseIndex cl) is Some _
      then false
      else if adjustUndefined (fc_args fc !! "value") is Some _ then false else true).

(** The body of the loop over [msg.toolCall.functionCalls] (lines
    185-195). *)
Definition onmessage_functionCall (cl : Closure) (fc : FunctionCall) : M unit :=
  if String.eqb (fc_name fc) "updateWorkoutState" then
    let action := fc_args fc !! "action" in
    let value := fc_args fc !! "value" in
    (if strict_eq action "set_difficulty" then handleDifficultyChange cl value
     else handleTrainerAction cl action) ;;;
    sessionCall (cl_sessionPromise cl) (SendToolResponse (fc_id fc) (fc_name fc) "ok")
  else ret tt.

(** The [toolCall] block of [onmessage] (lines 183-197). *)
Definition onmessage_toolCall (cl : Closure) (toolCall : option (list FunctionCall)) : M unit :=
  match toolCall with
  | Some functionCalls => forEach (onmessage_functionCall cl) functionCalls
  | None => ret tt
  end.

End Collaborators.

(** [handleStartWorkout] (lines 95-212) for a user with a profile, as far
    as the state cells and [sessionRef] go.  It runs in two steps with the
    handshake of the connection between them: the state writes of lines
    97-106 ([initialExercises] is what [getRecommendedWorkout] returned),
    and, once [await sessionPromise] resumes, the store of the session
    [sess] in [sessionRef] (line 211).  Other callbacks can run between
    the two. *)
Definition handleStartWorkout_begin (initialExercises : list Exercise) : M unit :=
  setIsWorkoutActive true ;;;
  setActiveExercises (fun _ => initialExercises) ;;;
  setWorkoutState (fun _ => ret (mkWorkoutState true 0 1 0 false)).

Definition handleStartWorkout_resume (sess : nat) : M unit :=
  modify (with_sessionRef (Some sess)).

(** The two steps with nothing in between: a handshake during which no
    other callback runs. *)
Definition handleStartWorkout (initialExercises : list Exercise) (sess : nat) : M unit :=
  handleStartWorkout_begin initialExercises ;;;
  handleStartWorkout_resume sess.

(** The component as mounted (lines 17-43), with the history read from
    storage. *)
Definition mounted (saved : list WorkoutSession) : World :=
  mkWorld false (mkWorkoutState false 0 1 0 false) [] saved false
    0%Q ∅ None None
    None [] [] ∅ 1 [] [].

(** [k] firings in a row of the interval with handle [h]. *)
Fixpoint ticks (h : Z) (k : nat) : M unit :=
  match k with
  | O => ret tt
  | S k' => restTimerTick h ;;; ticks h k'
  end.

(** A sequence of stop triggers on one workout attempt.  The Exit button
    and a [setTimeout(stopWorkout, 2000)] that comes due both call
    [stopWorkout]; a trigger is the [activeExercises] that [stopWorkout]
    captured and the clock at the call. *)
Definition stopAll (triggers : list (list Exercise * Clock)) : M unit :=
  forEach (fun t => stopWorkout t.1 t.2) triggers.

(** What can happen to a mounted component, one callback at a time. *)
Inductive Event :=
  | StartWorkout (initialExercises : list Exercise) (sess : nat)
  | TrainerAction (cl : Closure) (action : option string)
  | DifficultyChange (cl : Closure) (newDifficulty : option string)
  | IntervalTick (h : Z)
  | Stop (exs : list Exercise) (clk : Clock)
  | TimeoutDue (i : nat) (clk : Clock)
  | Interrupted
  | SourceEnded (src : nat)
  | StartRequested (initialExercises : list Exercise)
  | SessionResolved (sess : nat).

Section Timeline.

Variable adjustExerciseByDifficulty : Exercise -> option string -> Exercise.
Variable adjustUndefined : option string -> option Exercise.

Definition dispatch (e : Event) : M unit :=
  match e with
  | StartWorkout initialExercises sess => handleStartWorkout initialExercises sess
  | TrainerAction cl action => handleTrainerAction cl action
  | DifficultyChange cl d =>
      handleDifficultyChange adjustExerciseByDifficulty adjustUndefined cl d
  | IntervalTick h => restTimerTick h
  | Stop exs clk => stopWorkout exs clk
  | TimeoutDue i clk => fireTimeout i clk
  | Interrupted => onmessage_interrupted true
  | SourceEnded src => source_onended src
  | StartRequested initialExercises => handleStartWorkout_begin initialExercises
  | SessionResolved sess => handleStartWorkout_resume sess
  end.

(** The callbacks run one after the other; one that raises leaves the
    world as it was at the raise. *)
Definition timeline (events : list Event) (w : World) : World :=
  fold_left (fun w e => world_of (dispatch e w)) events w.

End Timeline.

(** ** Predicates of the properties below *)

Definition in_range {A : Type} (arr : list A) (i : Z) : Prop :=
  0 <= i < Z.of_nat (length arr).

(** The invariant of [WorkoutState] against an exercise list. *)
Definition StateInv (exs : list Exercise) (s : WorkoutState) : Prop :=
  (isActive s = true -> in_range exs (currentExerciseIndex s)) /\
  (isResting s = true -> 0 <= timer s) /\
  (timer s = 0 -> isResting s = false).

(** At most one interval is live, and it is the one [timerIntervalRef]
    names; handles are positive and below the next one to be issued. *)
Definition TimerInv (w : World) : Prop :=
  1 <= nextHandle w /\
  (forall r, timerIntervalRef w = Some r -> 1 <= r < nextHandle w) /\
  (forall h, is_Some (intervals w !! h) -> timerIntervalRef w = Some h).

(** [Array(targetSets)] of [stopWorkout] is defined. *)
Definition validSets (ex : Exercise) : Prop := 0 <= targetSets ex < 2 ^ 32.

(** The history record [stopWorkout] builds. *)
Definition sessionRecord (exs : list Exercise) (clk : Clock) : WorkoutSession :=
  mkWorkoutSession (nowString clk) (isoString clk)
    (map (fun ex =>
            mkExerciseLog (ex_id ex)
              (replicate (Z.to_nat (targetSets ex)) (mkSetLog (targetReps ex) None None)))
         exs).

(** How often [close()] was called on a session object. *)
Definition isClose (c : SessionCall) : bool :=
  match c with
  | Close => true
  | _ => false
  end.

Definition closeCount (calls : list (nat * SessionCall)) : nat :=
  length (List.filter (fun c => isClose c.2) calls).

(** The tool responses among the calls made on session objects, oldest
    first: session, call id, function name, result. *)
Definition toolResponses (calls : list (nat * SessionCall))
    : list (nat * string * string * string) :=
  flat_map (fun c =>
              match c.2 with
              | SendToolResponse id name result => [(c.1, id, name, result)]
              | _ => []
              end)
           calls.

Definition isUpdateWorkoutState (fc : FunctionCall) : bool :=
  String.eqb (fc_name fc) "updateWorkoutState".

(** ** Sample data for the concrete instances below *)

Module Sample.

Definition squat : Exercise :=
  mkExercise "squat" "Squat" "Legs" "Barbell back squat" 5 3 90 None.

Definition plank : Exercise :=
  mkExercise "plank" "Plank" "Core" "Forearm plank" 1 1 30 None.

(** An exercise done without rest between its sets. *)
Definition burpee : Exercise :=
  mkExercise "burpee" "Burpee" "Full body" "Burpees, no rest" 10 3 0 None.

Definition noon : Clock := mkClock "1793620800000" "2026-11-02T12:00:00.000Z".
Definition later : Clock := mkClock "1793620802000" "2026-11-02T12:00:02.000Z".

(** A stand-in for the collaborator: two reps more or fewer. *)
Definition adjust (ex : Exercise) (d : option string) : Exercise :=
  let delta :=
    if strict_eq d "Easy" then -2 else if strict_eq d "Challenging" then 2 else 0 in
  mkExercise (ex_id ex) (ex_name ex) (muscleGroup ex) (description ex)
    (targetReps ex + delta) (targetSets ex) (restSeconds ex) (difficulty ex).

Definition adjustNothing (d : option string) : option Exercise := None.

(** The callbacks of a render that sees [exs] with the current exercise
    at [i], on session 7. *)
Definition render (exs : list Exercise) (i : Z) : Closure := mkClosure exs i 7.

(** A workout on [exs] just started on session 7. *)
Definition started (exs : list Exercise) : World :=
  world_of (handleStartWorkout exs 7 (mounted [])).

(** Function calls as the agent may send them. *)
Definition call (id name action : string) : FunctionCall :=
  mkFunctionCall id name {["action" := action]}.

Definition callDifficulty (id value : string) : FunctionCall :=
  mkFunctionCall id "updateWorkoutState"
    (<["value" := value]> {["action" := "set_difficulty"]}).

End Sample.

(** [onclose] (line 207): the remote end closed the session. *)
Definition onclose : M unit := setIsWorkoutActive false.

(** ** Counting sets *)

(** The sets a list of exercises asks for. *)
Fixpoint totalSets (exs : list Exercise) : Z :=
  match exs with
  | [] => 0
  | ex :: exs' => targetSets ex + totalSets exs'
  end.

(** The sets still to be finished in state [s]: the rest of the current
    exercise, the current set included, and all of the later ones. *)
Definition setsToGo (exs : list Exercise) (s : WorkoutState) : Z :=
  match js_index exs (currentExerciseIndex s) with
  | Some ex =>
      targetSets ex - currentSet s + 1
      + totalSets (drop (S (Z.to_nat (currentExerciseIndex s))) exs)
  | None => 0
  end.

(** A workout under way on [exs]: active, on an exercise of the list, in
    one of its sets. *)
Definition inProgress (exs : list Exercise) (s : WorkoutState) : Prop :=
  isActive s = true /\
  exists ex,
    js_index exs (currentExerciseIndex s) = Some ex /\
    1 <= currentSet s <= targetSets ex.

(** [k] runs of a callback in a row. *)
Fixpoint times (k : nat) (c : M unit) : M unit :=
  match k with
  | O => ret tt
  | S k' => c ;;; times k' c
  end.

(** ** The message handler as a whole ([onmessage], lines 158-205) *)

(** A part of the model's turn, by its [inlineData?.data]. *)
Record Part := mkPart {
  inlineData : option string
}.

(** [msg.serverContent]: the text of [outputTranscription] when there is
    one, [turnComplete], the [parts] of [modelTurn] when there is one,
    [interrupted]. *)
Record ServerContent := mkServerContent {
  outputTranscription : option string;
  turnComplete : bool;
  modelTurn : option (list Part);
  interrupted : bool
}.

Record LiveServerMessage := mkLiveServerMessage {
  serverContent : option ServerContent;
  toolCall : option (list FunctionCall)
}.

(** The state of [App] that [World] leaves out: the [transcription] cell,
    the pending [setTimeout(() => setTranscription(''), ms)] calls,
    whether [outputAudioContextRef] holds a context, the [start(when)]
    calls made on audio nodes and the next node
    [createBufferSource()] returns. *)
Record Page := mkPage {
  world : World;
  transcription : string;
  clearTimeouts : list Z;
  outputAudioContextRef : bool;
  startCalls : list (nat * Q);
  nextNode : nat
}.

Definition with_world (w : World) (p : Page) : Page :=
  mkPage w (transcription p) (clearTimeouts p) (outputAudioContextRef p)
    (startCalls p) (nextNode p).

Definition with_transcription (t : string) (p : Page) : Page :=
  mkPage (world p) t (clearTimeouts p) (outputAudioContextRef p)
    (startCalls p) (nextNode p).

Definition with_clearTimeouts (l : list Z) (p : Page) : Page :=
  mkPage (world p) (transcription p) l (outputAudioContextRef p)
    (startCalls p) (nextNode p).

(** How a run of the [async] handler ends: its promise is fulfilled, or
    rejected by an exception; either way the page is as the run left it. *)
Inductive Settled :=
  | Fulfilled (p : Page)
  | Rejected (p : Page).

Definition page_of (r : Settled) : Page :=
  match r with
  | Fulfilled p => p
  | Rejected p => p
  end.

(** Truthiness of a string or [undefined]. *)
Definition truthy_string (x : option string) : bool :=
  match x with
  | Some s => negb (String.eqb s "")
  | None => false
  end.

(** [msg.serverContent?.modelTurn?.parts[0]?.inlineData?.data] (line
    165). *)
Definition audioBase64 (msg : LiveServerMessage) : option string :=
  match serverContent msg with
  | Some sc =>
      match modelTurn sc with
      | Some parts =>
          match js_index parts 0 with
          | Some part => inlineData part
          | None => None
          end
      | None => None
      end
  | None => None
  end.

(** The transcription block (lines 159-163). *)
Definition onmessage_transcription (msg : LiveServerMessage) (p : Page) : Page :=
  match serverContent msg with
  | Some sc =>
      match outputTranscription sc with
      | Some text => with_transcription text p
      | None =>
          if turnComplete sc then with_clearTimeouts (clearTimeouts p ++ [3000]) p
          else p
      end
  | None => p
  end.

(** A pending [setTimeout(() => setTranscription(''), 3000)] comes due. *)
Definition clearTranscription (i : nat) (p : Page) : Page :=
  match clearTimeouts p !! i with
  | Some _ =>
      with_transcription ""
        (with_clearTimeouts (take i (clearTimeouts p) ++ drop (S i) (clearTimeouts p)) p)
  | None => p
  end.

Section MessageHandler.

Variable adjustExerciseByDifficulty : Exercise -> option string -> Exercise.
Variable adjustUndefined : option string -> option Exercise.

(** [decodeAudioData(decode(data), ctx, SAMPLE_RATE_OUT, 1)] of
    [utils/audio], by the [duration] of the buffer it resolves to; [None]
    when it raises or rejects. *)
Variable decodeAudio : string -> option Q.

(** The audio block (lines 165-181); [currentTime] is [ctx.currentTime]
    when the block runs. *)
Definition onmessage_audio (msg : LiveServerMessage) (currentTime : Q) (p : Page)
    : Settled :=
  match audioBase64 msg with
  | Some data =>
      if truthy_string (Some data) && outputAudioContextRef p then
        let w1 := world_of (setIsModelSpeaking true (world p)) in
        let w2 := with_nextStartTimeRef (Qmax (nextStartTimeRef w1) currentTime) w1 in
        match decodeAudio data with
        | Some duration =>
            let source := nextNode p in
            let when := nextStartTimeRef w2 in
            let w3 := with_nextStartTimeRef (when + duration)%Q w2 in
            let w4 := with_sourcesRef ({[source]} ∪ sourcesRef w3) w3 in
            Fulfilled
              (mkPage w4 (transcription p) (clearTimeouts p) (outputAudioContextRef p)
                 (startCalls p ++ [(source, when)]) (S source))
        | None => Rejected (with_world w2 p)
        end
      else Fulfilled p
  | None => Fulfilled p
  end.

(** [onmessage] (lines 158-205): the four blocks in order.  An exception
    ends the run where it is raised. *)
Definition onmessage (cl : Closure) (msg : LiveServerMessage) (currentTime : Q)
    (p : Page) : Settled :=
  match onmessage_audio msg currentTime (onmessage_transcription msg p) with
  | Fulfilled p1 =>
      let isInterrupted :=
        match serverContent msg with
        | Some sc => interrupted sc
        | None => false
        end in
      match (onmessage_toolCall adjustExerciseByDifficulty adjustUndefined cl (toolCall msg) ;;;
             onmessage_interrupted isInterrupted) (world p1) with
      | Returned _ w => Fulfilled (with_world w p1)
      | Threw _ w => Rejected (with_world w p1)
      end
  | Rejected p1 => Rejected p1
  end.

End MessageHandler.

(** The page as mounted, and the page once [onopen] has created the
    output audio context. *)
Definition mountedPage (saved : list WorkoutSession) : Page :=
  mkPage (mounted saved) "" [] false [] 0.

Definition withOutputContext (p : Page) : Page :=
  mkPage (world p) (transcription p) (clearTimeouts p) true (startCalls p) (nextNode p).

(** Messages and pages for the concrete instances of the message
    handler. *)
Module Scenario.

(** A stand-in for the decoder: half a second of audio, or a failure. *)
Definition decode (data : string) : option Q :=
  if String.eqb data "garbled" then None else Some (1 # 2)%Q.

Definition audio (data : string) : LiveServerMessage :=
  mkLiveServerMessage
    (Some (mkServerContent None false (Some [mkPart (Some data)]) false)) None.

(** Audio together with a ['finish_set'] call and an interruption. *)
Definition loaded (data : string) : LiveServerMessage :=
  mkLiveServerMessage
    (Some (mkServerContent None false (Some [mkPart (Some data)]) true))
    (Some [Sample.call "c1" "updateWorkoutState" "finish_set"]).

Definition turnEnd : LiveServerMessage :=
  mkLiveServerMessage (Some (mkServerContent None true None false)) None.

Definition caption (text : string) : LiveServerMessage :=
  mkLiveServerMessage (Some (mkServerContent (Some text) false None false)) None.

(** A workout on squats and planks under way, the output context open. *)
Definition listening : Page :=
  withOutputContext
    (with_world (Sample.started [Sample.squat; Sample.plank]) (mountedPage [])).

End Scenario.

(** ** Evaluation lemmas *)

Lemma with_workoutState_same (w : World) : with_workoutState (workoutState w) w = w.
Proof. by destruct w. Qed.

Lemma js_index_Some {A : Type} (arr : list A) (i : Z) (x : A) :
  js_index arr i = Some x -> in_range arr i.
Proof.
  unfold js_index, in_range. intros H.
  destruct (Z.leb_spec 0 i) as [Hi|Hi]; [|discriminate].
  apply lookup_lt_Some in H. lia.
Qed.

Lemma js_index_None {A : Type} (arr : list A) (i : Z) :
  js_index arr i = None -> ~ in_range arr i.
Proof.
  unfold js_index, in_range. intros H.
  destruct (Z.leb_spec 0 i) as [Hi|Hi]; [|lia].
  apply lookup_ge_None in H. lia.
Qed.

Lemma js_index_in_range {A : Type} (arr : list A) (i : Z) :
  in_range arr i <-> is_Some (js_index arr i).
Proof.
  split.
  - intros Hr. destruct (js_index arr i) eqn:E; [eauto|].
    by apply js_index_None in E.
  - intros [x Hx]. by eapply js_index_Some.
Qed.

(** An action other than ['finish_set'] leaves the world as it is. *)
Lemma handleTrainerAction_other (cl : Closure) (action : option string) (w : World) :
  strict_eq action "finish_set" = false ->
  handleTrainerAction cl action w = Returned tt w.
Proof.
  intros Ha. unfold handleTrainerAction, setWorkoutState, handleTrainerAction_updater.
  rewrite Ha. cbn. by rewrite with_workoutState_same.
Qed.

(** ['finish_set'] with no current exercise: the updater raises. *)
Lemma finish_set_undefined (cl : Closure) (prev : WorkoutState) (w : World) :
  js_index (cl_activeExercises cl) (currentExerciseIndex prev) = None ->
  handleTrainerAction_updater cl (Some "finish_set") prev w = Threw TypeError w.
Proof.
  intros H. unfold handleTrainerAction_updater. cbn. by rewrite H.
Qed.

(** ['finish_set'] with more sets to go: rest. *)
Lemma finish_set_rest (cl : Closure) (prev : WorkoutState) (w : World) (ex : Exercise) :
  js_index (cl_activeExercises cl) (currentExerciseIndex prev) = Some ex ->
  currentSet prev < targetSets ex ->
  handleTrainerAction_updater cl (Some "finish_set") prev w =
    Returned
      (mkWorkoutState (isActive prev) (currentExerciseIndex prev)
         (currentSet prev + 1) (restSeconds ex) true)
      (world_of (startRestTimer (restSeconds ex) w)).
Proof.
  intros H Hlt. unfold handleTrainerAction_updater. cbn. rewrite H. cbn.
  unfold Z.geb. destruct (Z.compare_spec (currentSet prev) (targetSets ex)); try lia.
  unfold bind, startRestTimer, bind, gets.
  destruct (truthy_handle (timerIntervalRef w)); [destruct (timerIntervalRef w)|]; reflexivity.
Qed.

(** ['finish_set'] on the last set of an exercise that is not the last. *)
Lemma finish_set_advance (cl : Closure) (prev : WorkoutState) (w : World) (ex : Exercise) :
  js_index (cl_activeExercises cl) (currentExerciseIndex prev) = Some ex ->
  targetSets ex <= currentSet prev ->
  currentExerciseIndex prev < Z.of_nat (length (cl_activeExercises cl)) - 1 ->
  handleTrainerAction_updater cl (Some "finish_set") prev w =
    Returned (mkWorkoutState (isActive prev) (currentExerciseIndex prev + 1) 1 0 false) w.
Proof.
  intros H Hge Hlt. unfold handleTrainerAction_updater. cbn. rewrite H. cbn.
  destruct (Z.geb_spec (currentSet prev) (targetSets ex)); [|lia].
  destruct (Z.geb_spec (currentExerciseIndex prev)
              (Z.of_nat (length (cl_activeExercises cl)) - 1)); [lia|].
  reflexivity.
Qed.

(** ['finish_set'] on the last set of the last exercise. *)
Lemma finish_set_complete (cl : Closure) (prev : WorkoutState) (w : World) (ex : Exercise) :
  js_index (cl_activeExercises cl) (currentExerciseIndex prev) = Some ex ->
  targetSets ex <= currentSet prev ->
  Z.of_nat (length (cl_activeExercises cl)) - 1 <= currentExerciseIndex prev ->
  handleTrainerAction_updater cl (Some "finish_set") prev w =
    Returned
      (mkWorkoutState false (currentExerciseIndex prev) (currentSet prev)
         (timer prev) (isResting prev))
      (with_timeouts (timeouts w ++ [StopWorkoutAfter 2000 (cl_activeExercises cl)]) w).
Proof.
  intros H Hge Hlast. unfold handleTrainerAction_updater. cbn. rewrite H. cbn.
  destruct (Z.geb_spec (currentSet prev) (targetSets ex)); [|lia].
  destruct (Z.geb_spec (currentExerciseIndex prev)
              (Z.of_nat (length (cl_activeExercises cl)) - 1)); [|lia].
  reflexivity.
Qed.

Lemma handleTrainerAction_returns (cl : Closure) (action : option string) (w : World) :
  handleTrainerAction cl action w = Returned tt (world_of (handleTrainerAction cl action w)).
Proof.
  unfold handleTrainerAction, setWorkoutState.
  by destruct (handleTrainerAction_updater cl action (workoutState w) w).
Qed.

Lemma startRestTimer_frame (seconds : Z) (w : World) :
  let w' := world_of (startRestTimer seconds w) in
  workoutState w' = workoutState w /\ timeouts w' = timeouts w /\
  renderError w' = renderError w /\ sessionRef w' = sessionRef w /\
  sessionCalls w' = sessionCalls w /\ history w' = history w /\
  activeExercises w' = activeExercises w.
Proof.
  unfold startRestTimer, bind, gets.
  destruct (truthy_handle (timerIntervalRef w)); [destruct (timerIntervalRef w)|];
    cbn; auto 10.
Qed.

(** Under [TimerInv], starting a rest timer leaves exactly the new
    interval live. *)
Lemma startRestTimer_spec (seconds : Z) (w : World) :
  TimerInv w ->
  startRestTimer seconds w =
    Returned tt
      (with_timerIntervalRef (Some (nextHandle w))
         (with_nextHandle (nextHandle w + 1)
            (with_intervals {[nextHandle w := seconds]} w))).
Proof.
  intros (Hn & Href & Hlive).
  assert (Hdel : forall r, timerIntervalRef w = Some r -> delete r (intervals w) = ∅).
  { intros r Hr. apply map_eq. intros k. rewrite lookup_empty.
    destruct (decide (k = r)) as [->|Hne]; [apply lookup_delete_eq|].
    rewrite lookup_delete_ne by congruence.
    destruct (intervals w !! k) eqn:E; [|done].
    assert (timerIntervalRef w = Some k) by (apply Hlive; eauto). congruence. }
  assert (Hemp : truthy_handle (timerIntervalRef w) = false -> intervals w = ∅).
  { intros Hf. apply map_eq. intros k. rewrite lookup_empty.
    destruct (intervals w !! k) eqn:E; [|done].
    assert (Hk : timerIntervalRef w = Some k) by (apply Hlive; eauto).
    specialize (Href k Hk). rewrite Hk in Hf. cbn in Hf.
    destruct (Z.eqb_spec k 0); [lia|discriminate]. }
  unfold startRestTimer, bind, gets.
  destruct (truthy_handle (timerIntervalRef w)) eqn:Ht.
  - destruct (timerIntervalRef w) as [r|] eqn:Er; [|discriminate].
    cbn. unfold setInterval, with_intervals at 1. cbn.
    rewrite (Hdel r eq_refl). by rewrite insert_empty.
  - cbn. unfold setInterval. cbn. rewrite (Hemp eq_refl). by rewrite insert_empty.
Qed.

Lemma restTimerTick_workoutState (h : Z) (w : World) :
  workoutState (world_of (restTimerTick h w)) =
    match intervals w !! h with
    | None => workoutState w
    | Some before =>
        mkWorkoutState (isActive (workoutState w)) (currentExerciseIndex (workoutState w))
          (currentSet (workoutState w)) (before - 1)
          (if before - 1 <=? 0 then false else isResting (workoutState w))
    end.
Proof.
  unfold restTimerTick, bind, gets. destruct (intervals w !! h) as [b|]; [|done].
  cbn. destruct (b - 1 <=? 0); [|done].
  cbn. by destruct (timerIntervalRef w).
Qed.

Lemma finish_set_defined (cl : Closure) (prev : WorkoutState) (w : World) (ex : Exercise) :
  js_index (cl_activeExercises cl) (currentExerciseIndex prev) = Some ex ->
  returns (handleTrainerAction_updater cl (Some "finish_set") prev w) = true.
Proof.
  intros H.
  destruct (Z_lt_le_dec (currentSet prev) (targetSets ex)) as [Hlt|Hge].
  - by rewrite (finish_set_rest _ _ _ _ H Hlt).
  - destruct (Z_lt_le_dec (currentExerciseIndex prev)
                (Z.of_nat (length (cl_activeExercises cl)) - 1)) as [Hnl|Hl].
    + by rewrite (finish_set_advance _ _ _ _ H Hge Hnl).
    + by rewrite (finish_set_complete _ _ _ _ H Hge Hl).
Qed.

(** ** The finish-set transition *)

(** C10: ['finish_set'] reads [targetSets] and [restSeconds] of
    [activeExercises[currentExerciseIndex]] with no bounds guard.  The
    lookup is defined exactly when [0 <= currentExerciseIndex < length];
    exactly then the updater returns a state, and exactly otherwise (so on
    every index when the list is empty) it raises [TypeError], which the
    handler leaves for React to raise while rendering. *)
Theorem finish_set_defined_iff_in_range (cl : Closure) (prev : WorkoutState) (w : World) :
  let exs := cl_activeExercises cl in
  let i := currentExerciseIndex prev in
  let run := handleTrainerAction_updater cl (Some "finish_set") prev w in
  (in_range exs i <-> is_Some (js_index exs i)) /\
  (in_range exs i <-> returns run = true) /\
  (~ in_range exs i <-> run = Threw TypeError w) /\
  (exs = [] -> run = Threw TypeError w) /\
  (~ in_range exs (currentExerciseIndex (workoutState w)) ->
     handleTrainerAction cl (Some "finish_set") w =
       Returned tt (with_renderError (Some TypeError) w)).
Proof.
  cbn zeta.
  assert (Hout : forall p, ~ in_range (cl_activeExercises cl) (currentExerciseIndex p) ->
            handleTrainerAction_updater cl (Some "finish_set") p w = Threw TypeError w).
  { intros p Hn. apply finish_set_undefined.
    destruct (js_index _ _) eqn:E; [|done]. by apply js_index_Some in E. }
  split; [apply js_index_in_range|].
  split; [|split; [|split]].
  - split.
    + intros Hr. apply js_index_in_range in Hr as [ex Hex]. by eapply finish_set_defined.
    + intros Hret. destruct (js_index (cl_activeExercises cl) (currentExerciseIndex prev)) eqn:E.
      * by eapply js_index_Some.
      * by rewrite (finish_set_undefined _ _ _ E) in Hret.
  - split; [apply Hout|].
    intros Hthrow Hr. apply js_index_in_range in Hr as [ex Hex].
    pose proof (finish_set_defined cl prev w ex Hex) as Hret.
    by rewrite Hthrow in Hret.
  - intros Hnil. apply Hout. rewrite Hnil. unfold in_range. cbn. lia.
  - intros Hn. unfold handleTrainerAction, setWorkoutState. by rewrite (Hout _ Hn).
Qed.

(** C3: with more sets to go in the current exercise, ['finish_set']
    adds one to [currentSet], sets [isResting], sets [timer] to the
    exercise's [restSeconds] and keeps [currentExerciseIndex]; on the last
    set of an exercise that is not the last, it sets [currentSet] to 1,
    clears [isResting], zeroes [timer] and adds one to
    [currentExerciseIndex].  The handler returns in both cases. *)
Theorem finish_set_rest_or_advance (cl : Closure) (w : World) (ex : Exercise) :
  let prev := workoutState w in
  js_index (cl_activeExercises cl) (currentExerciseIndex prev) = Some ex ->
  exists w',
    handleTrainerAction cl (Some "finish_set") w = Returned tt w' /\
    renderError w' = renderError w /\
    (currentSet prev < targetSets ex ->
       workoutState w' =
         mkWorkoutState (isActive prev) (currentExerciseIndex prev)
           (currentSet prev + 1) (restSeconds ex) true) /\
    (currentSet prev = targetSets ex ->
     currentExerciseIndex prev < Z.of_nat (length (cl_activeExercises cl)) - 1 ->
       workoutState w' =
         mkWorkoutState (isActive prev) (currentExerciseIndex prev + 1) 1 0 false).
Proof.
  intros prev Hex. eexists. split; [apply handleTrainerAction_returns|].
  unfold handleTrainerAction, setWorkoutState. fold prev.
  destruct (Z_lt_le_dec (currentSet prev) (targetSets ex)) as [Hlt|Hge].
  - rewrite (finish_set_rest _ _ _ _ Hex Hlt). cbn.
    destruct (startRestTimer_frame (restSeconds ex) w) as (_ & _ & Hre & _).
    split; [exact Hre|]. split; [reflexivity|]. intros; lia.
  - destruct (Z_lt_le_dec (currentExerciseIndex prev)
                (Z.of_nat (length (cl_activeExercises cl)) - 1)) as [Hnl|Hl].
    + rewrite (finish_set_advance _ _ _ _ Hex Hge Hnl). cbn.
      split; [reflexivity|]. split; [intros; lia|reflexivity].
    + rewrite (finish_set_complete _ _ _ _ Hex Hge Hl). cbn.
      split; [reflexivity|]. split; intros; lia.
Qed.

Lemma finish_set_rest_or_advance_witness :
  (exists w',
     handleTrainerAction (Sample.render [Sample.squat; Sample.plank] 0)
       (Some "finish_set") (Sample.started [Sample.squat; Sample.plank])
       = Returned tt w' /\
     workoutState w' = mkWorkoutState true 0 2 90 true) /\
  (exists w',
     handleTrainerAction (Sample.render [Sample.plank; Sample.squat] 0)
       (Some "finish_set") (Sample.started [Sample.plank; Sample.squat])
       = Returned tt w' /\
     workoutState w' = mkWorkoutState true 1 1 0 false).
Proof.
  split.
  - destruct (finish_set_rest_or_advance
                (Sample.render [Sample.squat; Sample.plank] 0)
                (Sample.started [Sample.squat; Sample.plank]) Sample.squat eq_refl)
      as (w' & Hrun & _ & Hrest & _).
    exists w'. split; [exact Hrun|]. apply Hrest. cbn. lia.
  - destruct (finish_set_rest_or_advance
                (Sample.render [Sample.plank; Sample.squat] 0)
                (Sample.started [Sample.plank; Sample.squat]) Sample.plank eq_refl)
      as (w' & Hrun & _ & _ & Hadv).
    exists w'. split; [exact Hrun|]. apply Hadv; cbn; [reflexivity|lia].
Defined.

(** C1 (amended): on the last set of the last exercise ['finish_set']
    clears [isActive], keeps the other fields and schedules [stopWorkout]
    once.  A further ['finish_set'] in that state changes no field of
    [WorkoutState], but it is not a no-op: nothing guards on [isActive],
    and it schedules [stopWorkout] once more. *)
Theorem finish_set_completion (cl : Closure) (w : World) (ex : Exercise) :
  let prev := workoutState w in
  let stop := StopWorkoutAfter 2000 (cl_activeExercises cl) in
  js_index (cl_activeExercises cl) (currentExerciseIndex prev) = Some ex ->
  targetSets ex <= currentSet prev ->
  Z.of_nat (length (cl_activeExercises cl)) - 1 <= currentExerciseIndex prev ->
  exists w1 w2,
    handleTrainerAction cl (Some "finish_set") w = Returned tt w1 /\
    workoutState w1 =
      mkWorkoutState false (currentExerciseIndex prev) (currentSet prev)
        (timer prev) (isResting prev) /\
    timeouts w1 = (timeouts w ++ [stop])%list /\
    handleTrainerAction cl (Some "finish_set") w1 = Returned tt w2 /\
    workoutState w2 = workoutState w1 /\
    w2 = with_timeouts (timeouts w1 ++ [stop]) w1.
Proof.
  intros prev stop Hex Hge Hlast.
  pose (s1 := mkWorkoutState false (currentExerciseIndex prev) (currentSet prev)
                (timer prev) (isResting prev)).
  pose (w1 := with_workoutState s1 (with_timeouts (timeouts w ++ [stop]) w)).
  exists w1, (with_timeouts (timeouts w1 ++ [stop]) w1).
  split.
  { unfold handleTrainerAction, setWorkoutState. fold prev.
    by rewrite (finish_set_complete _ _ _ _ Hex Hge Hlast). }
  split; [reflexivity|]. split; [reflexivity|]. split; [|split; reflexivity].
  unfold handleTrainerAction, setWorkoutState.
  rewrite (finish_set_complete cl (workoutState w1) w1 ex); [|exact Hex|exact Hge|exact Hlast].
  reflexivity.
Qed.

Lemma finish_set_completion_witness :
  exists w1 w2,
    handleTrainerAction (Sample.render [Sample.plank] 0) (Some "finish_set")
      (Sample.started [Sample.plank]) = Returned tt w1 /\
    workoutState w1 = mkWorkoutState false 0 1 0 false /\
    handleTrainerAction (Sample.render [Sample.plank] 0) (Some "finish_set") w1
      = Returned tt w2 /\
    workoutState w2 = workoutState w1 /\
    timeouts w2 =
      [StopWorkoutAfter 2000 [Sample.plank]; StopWorkoutAfter 2000 [Sample.plank]].
Proof.
  destruct (finish_set_completion (Sample.render [Sample.plank] 0)
              (Sample.started [Sample.plank]) Sample.plank eq_refl)
    as (w1 & w2 & H1 & Hs1 & Ht1 & H2 & Hs2 & Hw2); [cbn; lia|cbn; lia|].
  exists w1, w2. split; [exact H1|]. split; [exact Hs1|]. split; [exact H2|].
  split; [exact Hs2|]. rewrite Hw2. cbn. rewrite Ht1. reflexivity.
Defined.

(** C1, as stated, fails: a single-set, single-exercise workout, two
    ['finish_set'] calls in a row.  The second one changes the world (a
    second [stopWorkout] is pending), and when both timeouts have fired
    the teardown has run twice: two history records. *)
Lemma finish_set_after_completion_reschedules :
  let cl := Sample.render [Sample.plank] 0 in
  let w1 := world_of (handleTrainerAction cl (Some "finish_set")
                        (Sample.started [Sample.plank])) in
  let w2 := world_of (handleTrainerAction cl (Some "finish_set") w1) in
  let w4 := world_of (fireTimeout 0 Sample.later
                        (world_of (fireTimeout 0 Sample.noon w2))) in
  isActive (workoutState w1) = false /\
  length (timeouts w1) = 1%nat /\
  w2 <> w1 /\
  length (timeouts w2) = 2%nat /\
  length (history w4) = 2%nat.
Proof.
  cbn zeta. split; [reflexivity|]. split; [reflexivity|].
  split; [|split; reflexivity].
  intros Heq. apply (f_equal (fun x => length (timeouts x))) in Heq.
  vm_compute in Heq. discriminate.
Qed.

(** ** Stopping a session *)

Lemma closeCount_app (a b : list (nat * SessionCall)) :
  closeCount (a ++ b) = (closeCount a + closeCount b)%nat.
Proof. unfold closeCount. by rewrite List.filter_app, length_app. Qed.

Lemma stopWorkout_logs (exs : list Exercise) (w : World) :
  Forall validSets exs ->
  mapM stopWorkout_log exs w =
  Returned
    (map (fun ex =>
            mkExerciseLog (ex_id ex)
              (replicate (Z.to_nat (targetSets ex)) (mkSetLog (targetReps ex) None None)))
         exs) w.
Proof.
  induction 1 as [|ex exs Hex _ IH]; [reflexivity|].
  cbn [mapM map]. unfold bind at 1.
  assert (Hlog : stopWorkout_log ex w =
            Returned (mkExerciseLog (ex_id ex)
              (replicate (Z.to_nat (targetSets ex)) (mkSetLog (targetReps ex) None None))) w).
  { unfold stopWorkout_log, bind, Array_fill. destruct Hex as [Hlo Hhi].
    destruct (Z.leb_spec 0 (targetSets ex)); [|lia].
    by destruct (Z.ltb_spec (targetSets ex) (2 ^ 32)); [|lia]. }
  rewrite Hlog. unfold bind at 1. by rewrite IH.
Qed.

(** One [stopWorkout] call: it returns, has closed the session if and
    only if [sessionRef] still held it, and has put one record in front of
    the history. *)
Lemma stopWorkout_spec (exs : list Exercise) (clk : Clock) (w : World) :
  Forall validSets exs ->
  exists w',
    stopWorkout exs clk w = Returned tt w' /\
    history w' = sessionRecord exs clk :: history w /\
    sessionRef w' = None /\
    closeCount (sessionCalls w') =
      (closeCount (sessionCalls w) + if sessionRef w is Some _ then 1 else 0)%nat /\
    isWorkoutActive w' = false /\
    isActive (workoutState w') = false.
Proof.
  intros Hv. unfold stopWorkout.
  unfold bind at 1. cbn [setIsWorkoutActive modify].
  unfold bind at 1. cbn [setWorkoutState ret].
  set (w1 := with_workoutState _ _).
  unfold bind at 1.
  set (w2 := match sessionRef w with
             | Some sess =>
                 with_sessionRef None (with_sessionCalls (sessionCalls w ++ [(sess, Close)]) w1)
             | None => w1
             end).
  assert (H2 : (let* s := gets sessionRef in
         match s with
         | Some sess => sessionCall sess Close;;; modify (with_sessionRef None)
         | None => ret tt
         end) w1 = Returned tt w2).
  { unfold bind, gets, w2. cbn. by destruct (sessionRef w). }
  rewrite H2. clear H2.
  unfold bind at 1.
  set (w3 := if truthy_handle (timerIntervalRef w)
             then match timerIntervalRef w with
                  | Some h => with_intervals (delete h (intervals w2)) w2
                  | None => w2
                  end
             else w2).
  assert (H3 : (let* r := gets timerIntervalRef in
         if truthy_handle r then clearInterval r else ret tt) w2 = Returned tt w3).
  { unfold bind, gets, w3.
    assert (Hr : timerIntervalRef w2 = timerIntervalRef w)
      by (unfold w2; by destruct (sessionRef w)).
    rewrite Hr. destruct (truthy_handle (timerIntervalRef w)); [|done].
    by destruct (timerIntervalRef w). }
  rewrite H3. clear H3.
  unfold bind at 1. rewrite (stopWorkout_logs exs w3 Hv).
  eexists. split; [reflexivity|].
  unfold w3, w2.
  destruct (truthy_handle (timerIntervalRef w));
    destruct (timerIntervalRef w); destruct (sessionRef w) eqn:Es;
    cbn -[closeCount]; rewrite ?Es, ?closeCount_app; cbn;
    repeat split; try reflexivity; try lia.
Qed.

(** A timeout that comes due is a [stopWorkout] call. *)
Lemma fireTimeout_stopWorkout (i : nat) (clk : Clock) (w : World) (ms : Z)
    (exs : list Exercise) :
  timeouts w !! i = Some (StopWorkoutAfter ms exs) ->
  fireTimeout i clk w =
    stopWorkout exs clk
      (with_timeouts (take i (timeouts w) ++ drop (S i) (timeouts w)) w).
Proof.
  intros H. unfold fireTimeout, bind at 1, gets. rewrite H.
  unfold bind at 1. reflexivity.
Qed.

(** C4 (amended): whatever the sequence of stop triggers, [close()] is
    called at most once, namely by the first trigger if [sessionRef] still
    holds the session; and every trigger puts one record in front of the
    history, so [n] triggers append [n] records, and exactly one only when
    there is a single trigger. *)
Theorem stop_closes_once_logs_each (triggers : list (list Exercise * Clock)) (w : World) :
  Forall (fun t => Forall validSets t.1) triggers ->
  exists w',
    stopAll triggers w = Returned tt w' /\
    (closeCount (sessionCalls w') <= closeCount (sessionCalls w) + 1)%nat /\
    closeCount (sessionCalls w') =
      (closeCount (sessionCalls w) +
       match sessionRef w, triggers with
       | Some _, _ :: _ => 1
       | _, _ => 0
       end)%nat /\
    history w' =
      (rev (map (fun t => sessionRecord t.1 t.2) triggers) ++ history w)%list /\
    length (history w') = (length (history w) + length triggers)%nat.
Proof.
  intros Hv. revert w.
  induction Hv as [|t triggers Ht _ IH]; intros w.
  - exists w. cbn. split; [reflexivity|].
    destruct (sessionRef w); cbn; repeat split; lia.
  - destruct (stopWorkout_spec t.1 t.2 w Ht) as (w1 & Hrun & Hh & Hs & Hc & _).
    destruct (IH w1) as (w' & Hrun' & _ & Hc' & Hh' & Hl').
    exists w'. unfold stopAll in *. cbn [forEach]. unfold bind at 1. rewrite Hrun.
    split; [exact Hrun'|].
    rewrite Hs in Hc'. rewrite Hh in Hh', Hl'. cbn [length] in Hl'.
    split; [destruct (sessionRef w); lia|].
    split; [destruct (sessionRef w); lia|].
    split; [|cbn [length]; lia].
    rewrite Hh'. cbn [map rev]. by rewrite <- app_assoc.
Qed.

Lemma stop_closes_once_logs_each_witness :
  exists w',
    stopAll [([Sample.squat; Sample.plank], Sample.noon)]
      (Sample.started [Sample.squat; Sample.plank]) = Returned tt w' /\
    closeCount (sessionCalls w') = 1%nat /\
    length (history w') = 1%nat.
Proof.
  destruct (stop_closes_once_logs_each
              [([Sample.squat; Sample.plank], Sample.noon)]
              (Sample.started [Sample.squat; Sample.plank]))
    as (w' & Hrun & _ & Hc & _ & Hl).
  - repeat constructor; cbn; lia.
  - exists w'. split; [exact Hrun|]. split; [exact Hc|exact Hl].
Defined.

(** C4, as stated, fails: a one-set, one-exercise workout is completed
    (which schedules [stopWorkout]), the user leaves with the Exit button
    before the two seconds are over, and the timeout then comes due.  The
    session is closed once, and the history holds two records of the one
    session. *)
Lemma two_stops_two_records :
  let cl := Sample.render [Sample.plank] 0 in
  let w1 := world_of (handleTrainerAction cl (Some "finish_set")
                        (Sample.started [Sample.plank])) in
  let w2 := world_of (stopWorkout [Sample.plank] Sample.noon w1) in
  let w3 := world_of (fireTimeout 0 Sample.later w2) in
  timeouts w1 = [StopWorkoutAfter 2000 [Sample.plank]] /\
  closeCount (sessionCalls w3) = 1%nat /\
  history w3 =
    [sessionRecord [Sample.plank] Sample.later;
     sessionRecord [Sample.plank] Sample.noon] /\
  length (history w3) <> 1%nat.
Proof.
  cbn zeta. split; [reflexivity|]. split; [reflexivity|]. split; [reflexivity|].
  vm_compute. discriminate.
Qed.

(** ** The rest timer *)

Lemma startRestTimer_TimerInv (seconds : Z) (w : World) :
  TimerInv w -> TimerInv (world_of (startRestTimer seconds w)).
Proof.
  intros Hinv. rewrite (startRestTimer_spec seconds w Hinv).
  destruct Hinv as (Hn & Href & Hlive). unfold TimerInv. cbn.
  split; [lia|]. split.
  - intros r [= <-]. lia.
  - intros h [x Hx]. apply lookup_singleton_Some in Hx as [-> _]. reflexivity.
Qed.

Lemma TimerInv_ext (w w' : World) :
  nextHandle w' = nextHandle w ->
  timerIntervalRef w' = timerIntervalRef w ->
  intervals w' = intervals w ->
  TimerInv w -> TimerInv w'.
Proof. unfold TimerInv. by intros -> -> ->. Qed.

(** [TimerInv] holds when the component mounts and is kept by the trainer
    action and by every tick: no two rest timers are ever live. *)
Lemma TimerInv_mounted (saved : list WorkoutSession) : TimerInv (mounted saved).
Proof.
  unfold TimerInv. cbn. split; [lia|]. split; [discriminate|].
  intros h [x Hx]. by rewrite lookup_empty in Hx.
Qed.

Lemma handleTrainerAction_TimerInv (cl : Closure) (action : option string) (w : World) :
  TimerInv w -> TimerInv (world_of (handleTrainerAction cl action w)).
Proof.
  intros Hinv. destruct (strict_eq action "finish_set") eqn:Ha.
  2:{ by rewrite (handleTrainerAction_other _ _ _ Ha). }
  assert (action = Some "finish_set") as ->.
  { destruct action as [a|]; [|discriminate]. cbn in Ha.
    by apply String.eqb_eq in Ha as ->. }
  unfold handleTrainerAction, setWorkoutState.
  destruct (js_index (cl_activeExercises cl) (currentExerciseIndex (workoutState w)))
    as [ex|] eqn:Hex.
  2:{ rewrite (finish_set_undefined _ _ _ Hex). cbn.
      by apply (TimerInv_ext w). }
  destruct (Z_lt_le_dec (currentSet (workoutState w)) (targetSets ex)) as [Hlt|Hge].
  - rewrite (finish_set_rest _ _ _ _ Hex Hlt). cbn.
    apply (TimerInv_ext (world_of (startRestTimer (restSeconds ex) w))); try reflexivity.
    by apply startRestTimer_TimerInv.
  - destruct (Z_lt_le_dec (currentExerciseIndex (workoutState w))
                (Z.of_nat (length (cl_activeExercises cl)) - 1)) as [Hnl|Hl].
    + rewrite (finish_set_advance _ _ _ _ Hex Hge Hnl). cbn.
      by apply (TimerInv_ext w).
    + rewrite (finish_set_complete _ _ _ _ Hex Hge Hl). cbn.
      by apply (TimerInv_ext w).
Qed.

Lemma restTimerTick_TimerInv (h : Z) (w : World) :
  TimerInv w -> TimerInv (world_of (restTimerTick h w)).
Proof.
  intros (Hn & Href & Hlive). unfold restTimerTick, bind at 1, gets.
  destruct (intervals w !! h) as [before|] eqn:Hh; [|by unfold TimerInv].
  assert (Hr : timerIntervalRef w = Some h) by (apply Hlive; eauto).
  assert (Hsub : forall k (m : gmap Z Z),
            is_Some (m !! k) -> (m = <[h := before - 1]> (intervals w) \/
                                 m = delete h (<[h := before - 1]> (intervals w))) ->
            timerIntervalRef w = Some k).
  { intros k m [x Hx] [->| ->].
    - destruct (decide (k = h)) as [->|Hne]; [done|].
      rewrite lookup_insert_ne in Hx by done. apply Hlive. eauto.
    - destruct (decide (k = h)) as [->|Hne]; [by rewrite lookup_delete_eq in Hx|].
      rewrite lookup_delete_ne, lookup_insert_ne in Hx by done. apply Hlive. eauto. }
  unfold bind, gets. cbn. destruct (before - 1 <=? 0); cbn.
  - rewrite Hr. cbn. unfold TimerInv. cbn.
    split; [exact Hn|]. split; [exact Href|]. intros k Hk. eapply Hsub; eauto.
  - unfold TimerInv. cbn. split; [exact Hn|]. split; [exact Href|].
    intros k Hk. eapply Hsub; eauto.
Qed.

Lemma TimerInv_shrink (w w' : World) :
  nextHandle w' = nextHandle w ->
  timerIntervalRef w' = timerIntervalRef w ->
  (forall h, is_Some (intervals w' !! h) -> is_Some (intervals w !! h)) ->
  TimerInv w -> TimerInv w'.
Proof.
  intros Hn Hr Hsub (H1 & H2 & H3). unfold TimerInv. rewrite Hn, Hr.
  split; [exact H1|]. split; [exact H2|]. intros h Hh. apply H3, Hsub, Hh.
Qed.

Lemma stopWorkout_logs_world (exs : list Exercise) (w : World) :
  world_of (mapM stopWorkout_log exs w) = w.
Proof.
  induction exs as [|ex exs IH]; [reflexivity|].
  cbn [mapM]. unfold bind at 1.
  assert (Hlog : (exists l, stopWorkout_log ex w = Returned l w) \/
                 (exists e, stopWorkout_log ex w = Threw e w)).
  { unfold stopWorkout_log, bind, Array_fill.
    destruct ((0 <=? targetSets ex) && (targetSets ex <? 2 ^ 32)); cbn; eauto. }
  destruct Hlog as [[l ->]|[e ->]]; [|reflexivity].
  unfold bind at 1. destruct (mapM stopWorkout_log exs w); cbn in *; by subst.
Qed.

Lemma stopWorkout_TimerInv (exs : list Exercise) (clk : Clock) (w : World) :
  TimerInv w -> TimerInv (world_of (stopWorkout exs clk w)).
Proof.
  intros Hinv. unfold stopWorkout.
  unfold bind at 1. cbn [setIsWorkoutActive modify].
  unfold bind at 1. cbn [setWorkoutState ret].
  set (w1 := with_workoutState _ _).
  unfold bind at 1.
  set (w2 := match sessionRef w with
             | Some sess =>
                 with_sessionRef None (with_sessionCalls (sessionCalls w ++ [(sess, Close)]) w1)
             | None => w1
             end).
  assert (H2 : (let* s := gets sessionRef in
         match s with
         | Some sess => sessionCall sess Close;;; modify (with_sessionRef None)
         | None => ret tt
         end) w1 = Returned tt w2).
  { unfold bind, gets, w2. cbn. by destruct (sessionRef w). }
  rewrite H2. clear H2.
  unfold bind at 1.
  set (w3 := if truthy_handle (timerIntervalRef w)
             then match timerIntervalRef w with
                  | Some h => with_intervals (delete h (intervals w2)) w2
                  | None => w2
                  end
             else w2).
  assert (H3 : (let* r := gets timerIntervalRef in
         if truthy_handle r then clearInterval r else ret tt) w2 = Returned tt w3).
  { unfold bind, gets, w3.
    assert (Hr : timerIntervalRef w2 = timerIntervalRef w)
      by (unfold w2; by destruct (sessionRef w)).
    rewrite Hr. destruct (truthy_handle (timerIntervalRef w)); [|done].
    by destruct (timerIntervalRef w). }
  rewrite H3. clear H3.
  assert (Hinv3 : TimerInv w3).
  { apply (TimerInv_shrink w); [| |  |exact Hinv]; unfold w3, w2;
      destruct (truthy_handle (timerIntervalRef w));
      destruct (timerIntervalRef w) eqn:Er; destruct (sessionRef w); cbn; try done.
    all: intros h [x Hx]; apply lookup_delete_Some in Hx as [_ Hx]; eauto. }
  unfold bind at 1. pose proof (stopWorkout_logs_world exs w3) as Hw.
  destruct (mapM stopWorkout_log exs w3) as [logs w4|e w4]; cbn in Hw; subst w4.
  - cbn. by apply (TimerInv_shrink w3).
  - exact Hinv3.
Qed.

(** A tick of the only live interval with more than a second to go. *)
Lemma restTimerTick_running (h before : Z) (w : World) :
  intervals w = {[h := before]} ->
  0 < before - 1 ->
  restTimerTick h w =
    Returned tt
      (with_workoutState
         (mkWorkoutState (isActive (workoutState w)) (currentExerciseIndex (workoutState w))
            (currentSet (workoutState w)) (before - 1) (isResting (workoutState w)))
         (with_intervals {[h := before - 1]} w)).
Proof.
  intros Hi Hpos. unfold restTimerTick, bind at 1, gets. rewrite Hi, lookup_singleton_eq.
  unfold bind at 1. cbn [modify]. rewrite Hi, insert_singleton_eq.
  unfold bind at 1. cbn [setWorkoutState ret].
  destruct (Z.leb_spec (before - 1) 0); [lia|]. reflexivity.
Qed.

(** The tick that takes the only live interval to zero or below. *)
Lemma restTimerTick_last (h before : Z) (w : World) :
  intervals w = {[h := before]} ->
  timerIntervalRef w = Some h ->
  before - 1 <= 0 ->
  restTimerTick h w =
    Returned tt
      (with_workoutState
         (mkWorkoutState (isActive (workoutState w)) (currentExerciseIndex (workoutState w))
            (currentSet (workoutState w)) (before - 1) false)
         (with_intervals ∅ w)).
Proof.
  intros Hi Hr Hle. unfold restTimerTick, bind at 1, gets. rewrite Hi, lookup_singleton_eq.
  unfold bind at 1. cbn [modify]. rewrite Hi, insert_singleton_eq.
  unfold bind at 1. cbn [setWorkoutState ret].
  destruct (Z.leb_spec (before - 1) 0); [|lia].
  unfold bind, gets. cbn. rewrite Hr. cbn. by rewrite delete_singleton_eq.
Qed.

(** [k] ticks of the only live interval while it has more than [k]
    seconds to go. *)
Lemma ticks_running (h : Z) (k : nat) :
  forall (before : Z) (w : World),
    intervals w = {[h := before]} ->
    Z.of_nat k < before ->
    exists wk,
      ticks h k w = Returned tt wk /\
      intervals wk = {[h := before - Z.of_nat k]} /\
      timerIntervalRef wk = timerIntervalRef w /\
      (k <> O -> timer (workoutState wk) = before - Z.of_nat k) /\
      isResting (workoutState wk) = isResting (workoutState w) /\
      currentSet (workoutState wk) = currentSet (workoutState w) /\
      currentExerciseIndex (workoutState wk) = currentExerciseIndex (workoutState w) /\
      isActive (workoutState wk) = isActive (workoutState w).
Proof.
  induction k as [|k IH]; intros before w Hi Hlt.
  - exists w. cbn. rewrite Z.sub_0_r. repeat split; done.
  - cbn [ticks]. unfold bind at 1.
    rewrite (restTimerTick_running h before w Hi) by lia.
    set (w1 := with_workoutState _ _).
    destruct (IH (before - 1) w1) as (wk & Hrun & Hik & Hrk & Htk & Hres & Hset & Hidx & Hact);
      [reflexivity|lia|].
    exists wk. split; [exact Hrun|].
    split; [rewrite Hik; f_equal; lia|].
    split; [exact Hrk|].
    split; [|by repeat split].
    intros _. destruct k as [|k'].
    + cbn in Hrun. injection Hrun as <-. cbn. lia.
    + rewrite Htk by done. lia.
Qed.

Lemma ticks_app (h : Z) (a b : nat) (w : World) :
  ticks h (a + b) w = (ticks h a ;;; ticks h b) w.
Proof.
  revert w. induction a as [|a IH]; intros w; [reflexivity|].
  cbn [Nat.add ticks]. unfold bind.
  destruct (restTimerTick h w) as [[] w1|e w1]; [|reflexivity].
  rewrite IH. reflexivity.
Qed.

(** C6 (amended): for [N >= 1], [startRestTimer(N)] leaves the new
    interval as the only live one (an interval that was running is
    cancelled, so no two timers write [timer]); after [k] ticks, [1 <= k <
    N], [timer] is [N - k > 0] and [isResting] is as it was; after exactly
    [N] ticks [timer] is 0, [isResting] is false and no interval is
    live. *)
Theorem rest_timer_counts_down (N : nat) (w : World) :
  (1 <= N)%nat ->
  TimerInv w ->
  exists h w0,
    startRestTimer (Z.of_nat N) w = Returned tt w0 /\
    intervals w0 = {[h := Z.of_nat N]} /\
    timerIntervalRef w0 = Some h /\
    (forall k, (1 <= k < N)%nat ->
       exists wk,
         ticks h k w0 = Returned tt wk /\
         timer (workoutState wk) = Z.of_nat N - Z.of_nat k /\
         isResting (workoutState wk) = isResting (workoutState w) /\
         intervals wk = {[h := Z.of_nat N - Z.of_nat k]}) /\
    (exists wN,
       ticks h N w0 = Returned tt wN /\
       timer (workoutState wN) = 0 /\
       isResting (workoutState wN) = false /\
       intervals wN = ∅).
Proof.
  intros HN Hinv. eexists (nextHandle w), _.
  split; [apply (startRestTimer_spec _ _ Hinv)|].
  set (w0 := with_timerIntervalRef _ _).
  split; [reflexivity|]. split; [reflexivity|]. split.
  - intros k [Hk1 HkN].
    destruct (ticks_running (nextHandle w) k (Z.of_nat N) w0 eq_refl)
      as (wk & Hrun & Hik & _ & Htk & Hres & _); [lia|].
    exists wk. split; [exact Hrun|]. split; [apply Htk; lia|]. by split.
  - destruct N as [|m]; [lia|].
    destruct (ticks_running (nextHandle w) m (Z.of_nat (S m)) w0 eq_refl)
      as (wm & Hrun & Him & Hrm & _); [lia|].
    pose proof (ticks_app (nextHandle w) m 1 w0) as Happ.
    replace (m + 1)%nat with (S m) in Happ by lia.
    rewrite Happ. unfold bind at 1. rewrite Hrun.
    cbn [ticks]. unfold bind at 1.
    rewrite (restTimerTick_last (nextHandle w) (Z.of_nat (S m) - Z.of_nat m) wm Him);
      [|by rewrite Hrm|lia].
    eexists. split; [reflexivity|]. cbn. split; [lia|]. by split.
Qed.

Lemma rest_timer_counts_down_witness :
  exists h w0,
    startRestTimer 3 (Sample.started [Sample.squat]) = Returned tt w0 /\
    intervals w0 = {[h := 3]} /\
    (exists w3,
       ticks h 3 w0 = Returned tt w3 /\
       timer (workoutState w3) = 0 /\
       isResting (workoutState w3) = false /\
       intervals w3 = ∅).
Proof.
  destruct (rest_timer_counts_down 3 (Sample.started [Sample.squat]))
    as (h & w0 & Hstart & Hi & _ & _ & Hend).
  - lia.
  - unfold TimerInv. cbn. split; [lia|]. split; [discriminate|].
    intros h [x Hx]. by rewrite lookup_empty in Hx.
  - exists h, w0. split; [exact Hstart|]. split; [exact Hi|exact Hend].
Defined.

(** C6, as stated, fails for [N = 0]: finishing a set of an exercise with
    [restSeconds = 0] starts the timer with [seconds = 0].  After exactly
    0 ticks [isResting] is true; the one tick that follows writes [timer =
    -1], so ticking never makes [timer] 0. *)
Lemma rest_timer_zero_seconds :
  let cl := Sample.render [Sample.burpee] 0 in
  let w0 := world_of (handleTrainerAction cl (Some "finish_set")
                        (Sample.started [Sample.burpee])) in
  intervals w0 !! 1 = Some 0 /\
  workoutState (world_of (ticks 1 0 w0)) = mkWorkoutState true 0 2 0 true /\
  workoutState (world_of (ticks 1 1 w0)) = mkWorkoutState true 0 2 (-1) false /\
  workoutState (world_of (ticks 1 2 w0)) = mkWorkoutState true 0 2 (-1) false.
Proof. cbn zeta. repeat split; reflexivity. Qed.

(** ** Playback interruption *)

Lemma stop_each (l : list nat) (w : World) :
  forEach (fun s => modify (fun w => with_stopCalls (stopCalls w ++ [s]) w)) l w =
    Returned tt (with_stopCalls (stopCalls w ++ l) w).
Proof.
  revert w. induction l as [|s l IH]; intros w.
  - cbn. rewrite app_nil_r. by destruct w.
  - cbn [forEach]. unfold bind at 1. cbn [modify]. rewrite IH. cbn.
    by rewrite <- app_assoc.
Qed.





(** ** Frame lemmas for the trainer action *)

Lemma handleTrainerAction_updater_frame (cl : Closure) (action : option string)
    (prev : WorkoutState) (w : World) :
  let w' := world_of (handleTrainerAction_updater cl action prev w) in
  sessionRef w' = sessionRef w /\ sessionCalls w' = sessionCalls w /\
  history w' = history w /\ activeExercises w' = activeExercises w /\
  workoutState w' = workoutState w.
Proof.
  cbn zeta. destruct (strict_eq action "finish_set") eqn:Ha.
  2:{ unfold handleTrainerAction_updater. rewrite Ha. cbn. auto. }
  assert (action = Some "finish_set") as ->.
  { destruct action as [a|]; [|discriminate]. cbn in Ha.
    by apply String.eqb_eq in Ha as ->. }
  destruct (js_index (cl_activeExercises cl) (currentExerciseIndex prev)) as [ex|] eqn:Hex.
  2:{ rewrite (finish_set_undefined _ _ _ Hex). cbn. auto. }
  destruct (Z_lt_le_dec (currentSet prev) (targetSets ex)) as [Hlt|Hge].
  - rewrite (finish_set_rest _ _ _ _ Hex Hlt). cbn.
    destruct (startRestTimer_frame (restSeconds ex) w) as (? & ? & ? & ? & ? & ? & ?).
    auto.
  - destruct (Z_lt_le_dec (currentExerciseIndex prev)
                (Z.of_nat (length (cl_activeExercises cl)) - 1)) as [Hnl|Hl].
    + rewrite (finish_set_advance _ _ _ _ Hex Hge Hnl). cbn. auto.
    + rewrite (finish_set_complete _ _ _ _ Hex Hge Hl). cbn. auto.
Qed.

Lemma handleTrainerAction_frame (cl : Closure) (action : option string) (w : World) :
  let w' := world_of (handleTrainerAction cl action w) in
  sessionRef w' = sessionRef w /\ sessionCalls w' = sessionCalls w /\
  history w' = history w /\ activeExercises w' = activeExercises w.
Proof.
  cbn zeta. unfold handleTrainerAction, setWorkoutState.
  destruct (handleTrainerAction_updater_frame cl action (workoutState w) w)
    as (H1 & H2 & H3 & H4 & _).
  destruct (handleTrainerAction_updater cl action (workoutState w) w); cbn in *; auto.
Qed.

(** The state ['finish_set'] leaves in [workoutState]. *)
Lemma finish_set_workoutState (cl : Closure) (w : World) :
  let prev := workoutState w in
  workoutState (world_of (handleTrainerAction cl (Some "finish_set") w)) =
    match js_index (cl_activeExercises cl) (currentExerciseIndex prev) with
    | None => prev
    | Some ex =>
        if currentSet prev >=? targetSets ex then
          if currentExerciseIndex prev >=? Z.of_nat (length (cl_activeExercises cl)) - 1
          then mkWorkoutState false (currentExerciseIndex prev) (currentSet prev)
                 (timer prev) (isResting prev)
          else mkWorkoutState (isActive prev) (currentExerciseIndex prev + 1) 1 0 false
        else mkWorkoutState (isActive prev) (currentExerciseIndex prev)
               (currentSet prev + 1) (restSeconds ex) true
    end.
Proof.
  intros prev. unfold handleTrainerAction, setWorkoutState. fold prev.
  destruct (js_index (cl_activeExercises cl) (currentExerciseIndex prev)) as [ex|] eqn:Hex.
  2:{ by rewrite (finish_set_undefined _ _ _ Hex). }
  destruct (Z.geb_spec (currentSet prev) (targetSets ex)) as [Hge|Hlt].
  - destruct (Z.geb_spec (currentExerciseIndex prev)
                (Z.of_nat (length (cl_activeExercises cl)) - 1)) as [Hl|Hnl].
    + by rewrite (finish_set_complete _ _ _ _ Hex) by lia.
    + by rewrite (finish_set_advance _ _ _ _ Hex) by lia.
  - by rewrite (finish_set_rest _ _ _ _ Hex) by lia.
Qed.

Lemma toolResponses_app (a b : list (nat * SessionCall)) :
  toolResponses (a ++ b) = (toolResponses a ++ toolResponses b)%list.
Proof. unfold toolResponses. apply flat_map_app. Qed.

Lemma js_index_insert {A : Type} (arr : list A) (i j : Z) (x v : A) :
  js_index arr i = Some x ->
  js_index (<[Z.to_nat i := v]> arr) j = if decide (j = i) then Some v else js_index arr j.
Proof.
  intros Hi. pose proof (js_index_Some _ _ _ Hi) as [Hlo Hhi].
  unfold js_index in *. destruct (decide (j = i)) as [->|Hne].
  - destruct (Z.leb_spec 0 i); [|lia].
    apply list_lookup_insert_eq. lia.
  - destruct (Z.leb_spec 0 j); [|reflexivity].
    apply list_lookup_insert_ne. lia.
Qed.

Section WithCollaborators.

Variable adjustExerciseByDifficulty : Exercise -> option string -> Exercise.
Variable adjustUndefined : option string -> option Exercise.

Abbreviation difficultyChange :=
  (handleDifficultyChange adjustExerciseByDifficulty adjustUndefined).
Abbreviation functionCall :=
  (onmessage_functionCall adjustExerciseByDifficulty adjustUndefined).
Abbreviation toolCallBlock :=
  (onmessage_toolCall adjustExerciseByDifficulty adjustUndefined).
Abbreviation raises := (notificationRaises adjustUndefined).

(** What a difficulty change leaves behind, whether or not informing
    the model raised. *)
Lemma handleDifficultyChange_frame (cl : Closure) (d : option string) (w : World) :
  let i := cl_currentExerciseIndex cl in
  let w' := world_of (difficultyChange cl d w) in
  activeExercises w' =
    match js_index (activeExercises w) i with
    | Some ex => <[Z.to_nat i := adjustExerciseByDifficulty ex d]> (activeExercises w)
    | None => activeExercises w
    end /\
  workoutState w' = workoutState w /\
  isWorkoutActive w' = isWorkoutActive w /\
  sessionRef w' = sessionRef w /\
  toolResponses (sessionCalls w') = toolResponses (sessionCalls w).
Proof.
  cbn zeta. unfold handleDifficultyChange, bind, gets, setActiveExercises, modify, deref.
  cbn -[toolResponses String.app string_of_Z].
  destruct (sessionRef w) as [sess|] eqn:Es; [|cbn; repeat split; auto].
  destruct (js_index (cl_activeExercises cl) (cl_currentExerciseIndex cl));
    [|destruct (adjustUndefined d)];
    cbn -[toolResponses String.app string_of_Z];
    rewrite ?toolResponses_app; cbn -[String.app string_of_Z];
    rewrite ?app_nil_r; repeat split; auto.
Qed.

(** C8: a difficulty change made by a callback whose render has the
    current exercise at index [i] replaces [activeExercises[i]] by its
    adjustment (when there is such an entry) and nothing else: every
    other entry, the length of the list and all of [WorkoutState] are
    as before. *)
Theorem difficulty_change_replaces_current_only (cl : Closure) (d : option string)
    (w : World) :
  let i := cl_currentExerciseIndex cl in
  let w' := world_of (difficultyChange cl d w) in
  js_index (activeExercises w') i =
    (fun ex => adjustExerciseByDifficulty ex d) <$> js_index (activeExercises w) i /\
  (forall j, j <> i ->
     js_index (activeExercises w') j = js_index (activeExercises w) j) /\
  length (activeExercises w') = length (activeExercises w) /\
  workoutState w' = workoutState w /\
  isWorkoutActive w' = isWorkoutActive w.
Proof.
  cbn zeta.
  destruct (handleDifficultyChange_frame cl d w) as (Hex & Hst & Hact & _).
  rewrite Hex, Hst, Hact.
  destruct (js_index (activeExercises w) (cl_currentExerciseIndex cl)) as [ex|] eqn:Hi.
  - split; [|split; [|split; [|split]]]; try reflexivity.
    + rewrite (js_index_insert _ _ _ _ _ Hi). by rewrite decide_True.
    + intros j Hj. rewrite (js_index_insert _ _ _ _ _ Hi). by rewrite decide_False.
    + apply length_insert.
  - rewrite Hi. auto.
Qed.

(** ** The invariant of [WorkoutState] *)

Lemma StateInv_length (exs exs' : list Exercise) (s : WorkoutState) :
  length exs' = length exs -> StateInv exs s -> StateInv exs' s.
Proof. unfold StateInv, in_range. by intros ->. Qed.

Lemma restTimerTick_activeExercises (h : Z) (w : World) :
  activeExercises (world_of (restTimerTick h w)) = activeExercises w.
Proof.
  unfold restTimerTick, bind, gets. destruct (intervals w !! h) as [b|]; [|done].
  cbn. destruct (b - 1 <=? 0); [|done].
  cbn. by destruct (timerIntervalRef w).
Qed.

(** C5 (amended): the invariant of [WorkoutState] (an active state has
    its index inside the exercise list; a resting state has [timer >=
    0]; [timer = 0] goes with [isResting = false]), taken against the
    exercise list the callback holds, is preserved by the trainer action,
    by a difficulty change and by every tick of a rest timer; the trainer
    action needs that the current exercise has [restSeconds >= 1] when
    ['finish_set'] sends the workout into a rest, and nothing else.  All
    three keep the length of the list in the state cell, and the invariant
    only looks at the length of the list: it holds as well against the
    list in the state cell whenever that one is as long as the
    callback's. *)
Theorem invariant_preserved (cl : Closure) (action d : option string) (h : Z)
    (w : World) :
  let exs := cl_activeExercises cl in
  let afterAction := world_of (handleTrainerAction cl action w) in
  let afterChange := world_of (difficultyChange cl d w) in
  let afterTick := world_of (restTimerTick h w) in
  StateInv exs (workoutState w) ->
  ((forall ex,
      js_index exs (currentExerciseIndex (workoutState w)) = Some ex ->
      currentSet (workoutState w) < targetSets ex ->
      1 <= restSeconds ex) ->
   StateInv exs (workoutState afterAction)) /\
  StateInv exs (workoutState afterChange) /\
  StateInv exs (workoutState afterTick) /\
  length (activeExercises afterAction) = length (activeExercises w) /\
  length (activeExercises afterChange) = length (activeExercises w) /\
  length (activeExercises afterTick) = length (activeExercises w) /\
  (forall w', length (activeExercises w') = length exs ->
     (StateInv exs (workoutState w') <-> StateInv (activeExercises w') (workoutState w'))).
Proof.
  intros exs afterAction afterChange afterTick Hcl.
  split; [|split; [|split; [|split; [|split; [|split]]]]].
  - intros Hrest. subst afterAction.
    destruct (strict_eq action "finish_set") eqn:Ha.
    2:{ by rewrite (handleTrainerAction_other _ _ _ Ha). }
    assert (action = Some "finish_set") as ->.
    { destruct action as [a|]; [|discriminate]. cbn in Ha.
      by apply String.eqb_eq in Ha as ->. }
    rewrite finish_set_workoutState. fold exs.
    destruct (js_index exs (currentExerciseIndex (workoutState w)))
      as [ex|] eqn:Hex; [|exact Hcl].
    specialize (Hrest ex eq_refl). apply js_index_Some in Hex.
    destruct Hcl as (Hidx & Htimer & Hzero). unfold StateInv, in_range in *.
    destruct (Z.geb_spec (currentSet (workoutState w)) (targetSets ex));
      [destruct (Z.geb_spec (currentExerciseIndex (workoutState w))
                   (Z.of_nat (length exs) - 1))|];
      cbn; repeat split; intros; try discriminate; try lia; auto.
  - subst afterChange. by destruct (handleDifficultyChange_frame cl d w) as (_ & -> & _).
  - subst afterTick. destruct Hcl as (Hidx & Htimer & Hzero).
    rewrite restTimerTick_workoutState.
    destruct (intervals w !! h) as [before|]; [|unfold StateInv; auto].
    unfold StateInv. cbn.
    destruct (Z.leb_spec (before - 1) 0);
      (split; [exact Hidx|split; intros; try discriminate; try reflexivity; lia]).
  - subst afterAction.
    by destruct (handleTrainerAction_frame cl action w) as (_ & _ & _ & ->).
  - subst afterChange. destruct (handleDifficultyChange_frame cl d w) as (-> & _).
    destruct (js_index (activeExercises w) (cl_currentExerciseIndex cl)); [|done].
    apply length_insert.
  - subst afterTick. by rewrite restTimerTick_activeExercises.
  - intros w' Hlen. split; apply StateInv_length; congruence.
Qed.

(** ** The tool-call bridge *)

(** One function call, when informing the model does not raise. *)
Lemma onmessage_functionCall_spec (cl : Closure) (fc : FunctionCall) (w : World) :
  raises cl (sessionRef w) fc = false ->
  exists w',
    functionCall cl fc w = Returned tt w' /\
    sessionRef w' = sessionRef w /\
    toolResponses (sessionCalls w') =
      (toolResponses (sessionCalls w) ++
       if isUpdateWorkoutState fc
       then [(cl_sessionPromise cl, fc_id fc, fc_name fc, "ok")]
       else [])%list.
Proof.
  intros Hr. unfold onmessage_functionCall, notificationRaises, isUpdateWorkoutState in *.
  destruct (String.eqb (fc_name fc) "updateWorkoutState").
  2:{ exists w. cbn. by rewrite app_nil_r. }
  cbn [andb] in Hr.
  destruct (strict_eq (fc_args fc !! "action") "set_difficulty").
  - cbn [andb] in Hr. unfold bind at 1.
    destruct (handleDifficultyChange_frame cl (fc_args fc !! "value") w)
      as (_ & _ & _ & Hs & Ht).
    assert (Hret : exists w1,
              difficultyChange cl (fc_args fc !! "value") w = Returned tt w1).
    { unfold handleDifficultyChange, bind, gets, setActiveExercises, modify, deref.
      cbn -[String.app string_of_Z].
      destruct (sessionRef w); [|eauto]. cbn [andb] in Hr.
      destruct (js_index (cl_activeExercises cl) (cl_currentExerciseIndex cl)); [eauto|].
      destruct (adjustUndefined (fc_args fc !! "value")); [eauto|discriminate]. }
    destruct Hret as [w1 Hw1]. rewrite Hw1 in *. cbn [world_of] in *.
    eexists. split; [reflexivity|]. cbn -[toolResponses].
    rewrite toolResponses_app, Ht. by split.
  - unfold bind at 1. rewrite handleTrainerAction_returns.
    destruct (handleTrainerAction_frame cl (fc_args fc !! "action") w) as (Hs & Hc & _).
    eexists. split; [reflexivity|]. cbn -[toolResponses].
    rewrite toolResponses_app, Hc. by split.
Qed.

(** The tool-call block on its own: every function call named
    [updateWorkoutState] is answered once, in order, as long as no
    difficulty change raises. *)
Lemma onmessage_toolCall_answers (cl : Closure) (functionCalls : list FunctionCall)
    (w : World) :
  Forall (fun fc => raises cl (sessionRef w) fc = false) functionCalls ->
  exists w',
    toolCallBlock cl (Some functionCalls) w = Returned tt w' /\
    toolResponses (sessionCalls w') =
      (toolResponses (sessionCalls w) ++
       map (fun fc => (cl_sessionPromise cl, fc_id fc, fc_name fc, "ok"))
         (List.filter isUpdateWorkoutState functionCalls))%list.
Proof.
  cbn [onmessage_toolCall]. revert w.
  induction functionCalls as [|fc fcs IH]; intros w Hall.
  - exists w. cbn. by rewrite app_nil_r.
  - apply Forall_cons in Hall as [Hfc Hfcs].
    destruct (onmessage_functionCall_spec cl fc w Hfc) as (w1 & Hrun & Hs & Ht).
    destruct (IH w1) as (w' & Hrun' & Ht'); [by rewrite Hs|].
    exists w'. cbn [forEach]. unfold bind at 1. rewrite Hrun.
    split; [exact Hrun'|]. rewrite Ht', Ht. cbn [List.filter].
    destruct (isUpdateWorkoutState fc); cbn [map]; by rewrite <- app_assoc.
Qed.

(** ** Every world a timeline reaches *)

Lemma dispatch_TimerInv (e : Event) (w : World) :
  TimerInv w ->
  TimerInv (world_of (dispatch adjustExerciseByDifficulty adjustUndefined e w)).
Proof.
  intros Hinv. destruct e as [exs sess|cl action|cl d|h|exs clk|i clk| |src|exs|sess]; cbn [dispatch].
  - by apply (TimerInv_ext w).
  - by apply handleTrainerAction_TimerInv.
  - apply (TimerInv_ext w); [| | |exact Hinv];
      unfold handleDifficultyChange, bind, gets, setActiveExercises, modify, deref;
      cbn -[String.app string_of_Z];
      (destruct (sessionRef w); [|done]);
      (destruct (js_index (cl_activeExercises cl) (cl_currentExerciseIndex cl));
         [|destruct (adjustUndefined d)]); done.
  - by apply restTimerTick_TimerInv.
  - by apply stopWorkout_TimerInv.
  - unfold fireTimeout, bind at 1, gets.
    destruct (timeouts w !! i) as [[ms exs]|]; [|exact Hinv].
    unfold bind at 1. cbn [modify]. apply stopWorkout_TimerInv.
    by apply (TimerInv_ext w).
  - unfold onmessage_interrupted. unfold bind at 1. unfold bind at 1, gets.
    rewrite stop_each. by apply (TimerInv_ext w).
  - unfold source_onended, bind, gets. cbn.
    destruct (size (sourcesRef w ∖ {[src]}) =? 0)%nat; by apply (TimerInv_ext w).
  - by apply (TimerInv_ext w).
  - by apply (TimerInv_ext w).
Qed.

(** From the mount on, whatever happens, at most one rest timer is
    live. *)
Lemma timeline_TimerInv (events : list Event) (saved : list WorkoutSession) :
  TimerInv (timeline adjustExerciseByDifficulty adjustUndefined events (mounted saved)).
Proof.
  unfold timeline. generalize (TimerInv_mounted saved).
  generalize (mounted saved). induction events as [|e events IH]; intros w Hinv.
  - exact Hinv.
  - cbn [fold_left]. apply IH. by apply dispatch_TimerInv.
Qed.

End WithCollaborators.

(** ** Concrete instances *)

Lemma invariant_preserved_witness :
  let cl := Sample.render [Sample.squat; Sample.plank] 0 in
  let resting := world_of (handleTrainerAction cl (Some "finish_set")
                             (Sample.started [Sample.squat; Sample.plank])) in
  let lastSet := with_workoutState (mkWorkoutState true 0 3 0 false)
                   (Sample.started [Sample.burpee]) in
  workoutState resting = mkWorkoutState true 0 2 90 true /\
  intervals resting !! 1 = Some 90 /\
  StateInv (cl_activeExercises cl) (workoutState resting) /\
  StateInv (cl_activeExercises cl)
    (workoutState (world_of (handleTrainerAction cl (Some "finish_set") resting))) /\
  StateInv (cl_activeExercises cl)
    (workoutState
       (world_of (handleDifficultyChange Sample.adjust Sample.adjustNothing cl
                    (Some "Easy") resting))) /\
  StateInv (cl_activeExercises cl) (workoutState (world_of (restTimerTick 1 resting))) /\
  workoutState (world_of (restTimerTick 1 resting)) = mkWorkoutState true 0 2 89 true /\
  StateInv [Sample.burpee]
    (workoutState
       (world_of (handleTrainerAction (Sample.render [Sample.burpee] 0)
                    (Some "finish_set") lastSet))).
Proof.
  cbn zeta. split; [reflexivity|]. split; [reflexivity|].
  assert (H0 : StateInv [Sample.squat; Sample.plank]
                 (workoutState
                    (world_of (handleTrainerAction
                                 (Sample.render [Sample.squat; Sample.plank] 0)
                                 (Some "finish_set")
                                 (Sample.started [Sample.squat; Sample.plank]))))).
  { unfold StateInv, in_range. cbn. repeat split; intros; try discriminate; lia. }
  split; [exact H0|].
  destruct (invariant_preserved Sample.adjust Sample.adjustNothing
              (Sample.render [Sample.squat; Sample.plank] 0) (Some "finish_set")
              (Some "Easy") 1
              (world_of (handleTrainerAction
                           (Sample.render [Sample.squat; Sample.plank] 0)
                           (Some "finish_set")
                           (Sample.started [Sample.squat; Sample.plank]))) H0)
    as (Haction & Hchange & Htick & _).
  split; [apply Haction; intros ex [= <-] _; cbn; lia|].
  split; [exact Hchange|]. split; [exact Htick|]. split; [reflexivity|].
  assert (H1 : StateInv [Sample.burpee] (mkWorkoutState true 0 3 0 false)).
  { unfold StateInv, in_range. cbn. repeat split; intros; try discriminate; lia. }
  destruct (invariant_preserved Sample.adjust Sample.adjustNothing
              (Sample.render [Sample.burpee] 0) (Some "finish_set") None 1
              (with_workoutState (mkWorkoutState true 0 3 0 false)
                 (Sample.started [Sample.burpee])) H1)
    as (Hlast & _).
  apply Hlast. intros ex [= <-] Hlt. cbn in Hlt. lia.
Defined.

(** C5, as stated, fails: squats then burpees, the latter with
    [restSeconds = 0].  The third ['finish_set'] moves on to the burpees
    while the rest timer of the squats is still running; its next tick
    writes [timer = 89].  Finishing the first set of burpees then takes
    [timer] from 89 to 0 and sets [isResting]. *)
Lemma zero_rest_breaks_invariant :
  let exs := [Sample.squat; Sample.burpee] in
  let cl := Sample.render exs 0 in
  let finish := handleTrainerAction cl (Some "finish_set") in
  let w3 := world_of (finish (world_of (finish (world_of (finish (Sample.started exs)))))) in
  let w4 := world_of (restTimerTick 2 w3) in
  let w5 := world_of (finish w4) in
  workoutState w4 = mkWorkoutState true 1 1 89 false /\
  StateInv exs (workoutState w4) /\
  workoutState w5 = mkWorkoutState true 1 2 0 true /\
  ~ StateInv exs (workoutState w5).
Proof.
  cbn zeta. split; [reflexivity|]. split; [|split; [reflexivity|]].
  - unfold StateInv, in_range. cbn. repeat split; intros; try discriminate; lia.
  - intros (_ & _ & Hzero). specialize (Hzero eq_refl). discriminate.
Qed.

Lemma onmessage_interrupted_sessionCalls (b : bool) (w : World) :
  exists w',
    onmessage_interrupted b w = Returned tt w' /\
    sessionCalls w' = sessionCalls w.
Proof.
  destruct b; [|by exists w].
  eexists. split.
  - unfold onmessage_interrupted. unfold bind at 1. unfold bind at 1, gets.
    rewrite stop_each. reflexivity.
  - reflexivity.
Qed.

(** The first two blocks of [onmessage] when the audio, if any, decodes:
    they make no call on the session and leave [sessionRef] alone. *)
Lemma onmessage_audio_decodes (decodeAudio : string -> option Q)
    (msg : LiveServerMessage) (now : Q) (p : Page) :
  (forall data,
     audioBase64 msg = Some data -> data <> "" -> outputAudioContextRef p = true ->
     is_Some (decodeAudio data)) ->
  exists p1,
    onmessage_audio decodeAudio msg now (onmessage_transcription msg p) = Fulfilled p1 /\
    sessionRef (world p1) = sessionRef (world p) /\
    sessionCalls (world p1) = sessionCalls (world p).
Proof.
  intros Hdec.
  assert (Hp0 : world (onmessage_transcription msg p) = world p /\
                outputAudioContextRef (onmessage_transcription msg p)
                = outputAudioContextRef p).
  { unfold onmessage_transcription. destruct (serverContent msg) as [sc|]; [|done].
    destruct (outputTranscription sc); [done|]. by destruct (turnComplete sc). }
  destruct Hp0 as [Hw Hctx]. unfold onmessage_audio.
  assert (Hskip : exists p1,
            Fulfilled (onmessage_transcription msg p) = Fulfilled p1 /\
            sessionRef (world p1) = sessionRef (world p) /\
            sessionCalls (world p1) = sessionCalls (world p)).
  { exists (onmessage_transcription msg p). by rewrite Hw. }
  destruct (audioBase64 msg) as [data|] eqn:Ha; [|exact Hskip].
  rewrite Hctx. cbn [truthy_string].
  destruct (String.eqb_spec data "") as [->|Hne]; cbn [negb andb]; [exact Hskip|].
  destruct (outputAudioContextRef p) eqn:Hc; [|exact Hskip].
  destruct (Hdec data eq_refl Hne eq_refl) as [duration ->].
  eexists. split; [reflexivity|]. cbn. by rewrite Hw.
Qed.

(** C2 (amended): the message handler answers every function call named
    [updateWorkoutState] of a message, whatever its action (unknown ones
    included), with exactly one tool response carrying that call's id, in
    the order of the calls, provided it gets to the tool-call block and
    through it: the audio of the message, if there is any to play,
    decodes, and no difficulty change of the message raises while it
    informs the model.  A function call with another name is skipped and
    gets no response. *)
Theorem named_calls_answered_once
    (adjustExerciseByDifficulty : Exercise -> option string -> Exercise)
    (adjustUndefined : option string -> option Exercise)
    (decodeAudio : string -> option Q)
    (cl : Closure) (msg : LiveServerMessage) (now : Q) (p : Page) :
  let functionCalls := match toolCall msg with Some calls => calls | None => [] end in
  (forall data,
     audioBase64 msg = Some data -> data <> "" -> outputAudioContextRef p = true ->
     is_Some (decodeAudio data)) ->
  Forall (fun fc => notificationRaises adjustUndefined cl (sessionRef (world p)) fc = false)
    functionCalls ->
  exists p',
    onmessage adjustExerciseByDifficulty adjustUndefined decodeAudio cl msg now p
      = Fulfilled p' /\
    toolResponses (sessionCalls (world p')) =
      (toolResponses (sessionCalls (world p)) ++
       map (fun fc => (cl_sessionPromise cl, fc_id fc, fc_name fc, "ok"))
         (List.filter isUpdateWorkoutState functionCalls))%list.
Proof.
  intros functionCalls Hdec Hcalls. unfold onmessage.
  destruct (onmessage_audio_decodes decodeAudio msg now p Hdec) as (p1 & -> & Hs & Hc).
  assert (Hblock : exists w1,
            onmessage_toolCall adjustExerciseByDifficulty adjustUndefined cl (toolCall msg)
              (world p1) = Returned tt w1 /\
            toolResponses (sessionCalls w1) =
              (toolResponses (sessionCalls (world p)) ++
               map (fun fc => (cl_sessionPromise cl, fc_id fc, fc_name fc, "ok"))
                 (List.filter isUpdateWorkoutState functionCalls))%list).
  { subst functionCalls. destruct (toolCall msg) as [calls|].
    - destruct (onmessage_toolCall_answers adjustExerciseByDifficulty adjustUndefined
                  cl calls (world p1)) as (w1 & Hrun & Hresp); [by rewrite Hs|].
      exists w1. split; [exact Hrun|]. by rewrite Hresp, Hc.
    - exists (world p1). split; [reflexivity|]. cbn. by rewrite app_nil_r, Hc. }
  destruct Hblock as (w1 & Hrun & Hresp).
  unfold bind. rewrite Hrun.
  match goal with |- context [onmessage_interrupted ?b w1] =>
    destruct (onmessage_interrupted_sessionCalls b w1) as (w2 & -> & Hc2) end.
  eexists. split; [reflexivity|]. cbn. by rewrite Hc2.
Qed.

Lemma named_calls_answered_once_witness :
  let cl := Sample.render [Sample.squat; Sample.plank] 0 in
  let calls :=
    [Sample.call "c1" "updateWorkoutState" "finish_set";
     Sample.call "c2" "updateWorkoutState" "dance";
     Sample.callDifficulty "c3" "Easy";
     Sample.call "c4" "updateWorkoutState" "next_exercise"] in
  let msg :=
    mkLiveServerMessage
      (Some (mkServerContent None false (Some [mkPart (Some "AAAA")]) true))
      (Some calls) in
  exists p',
    onmessage Sample.adjust Sample.adjustNothing Scenario.decode cl msg 1%Q
      Scenario.listening = Fulfilled p' /\
    toolResponses (sessionCalls (world p')) =
      [(7%nat, "c1", "updateWorkoutState", "ok");
       (7%nat, "c2", "updateWorkoutState", "ok");
       (7%nat, "c3", "updateWorkoutState", "ok");
       (7%nat, "c4", "updateWorkoutState", "ok")].
Proof.
  cbn zeta.
  destruct (named_calls_answered_once Sample.adjust Sample.adjustNothing Scenario.decode
              (Sample.render [Sample.squat; Sample.plank] 0)
              (mkLiveServerMessage
                 (Some (mkServerContent None false (Some [mkPart (Some "AAAA")]) true))
                 (Some [Sample.call "c1" "updateWorkoutState" "finish_set";
                        Sample.call "c2" "updateWorkoutState" "dance";
                        Sample.callDifficulty "c3" "Easy";
                        Sample.call "c4" "updateWorkoutState" "next_exercise"]))
              1%Q Scenario.listening)
    as (p' & Hrun & Hresp).
  - intros data [= <-] _ _. by eexists.
  - repeat constructor.
  - exists p'. split; [exact Hrun|exact Hresp].
Defined.

(** C2, as stated, fails: a function call under another name is skipped
    by the guard on [fc.name]; the handler ends normally, the page is as
    before and no tool response was sent for [c9]. *)
Lemma other_function_name_unanswered :
  let cl := Sample.render [Sample.squat; Sample.plank] 0 in
  let msg :=
    mkLiveServerMessage None (Some [Sample.call "c9" "logWorkout" "finish_set"]) in
  onmessage Sample.adjust Sample.adjustNothing Scenario.decode cl msg 1%Q
    Scenario.listening = Fulfilled Scenario.listening /\
  toolResponses (sessionCalls (world Scenario.listening)) = [].
Proof. cbn zeta. split; reflexivity. Qed.

(** C9: the tool declaration offers ['next_exercise'], and the bridge
    hands it to [handleTrainerAction], which has no case for it: on a
    workout of two exercises, in its first set, the call is answered
    ["ok"] and the workout state is what it was. *)
Theorem next_exercise_leaves_state :
  let exs := [Sample.squat; Sample.plank] in
  let cl := Sample.render exs 0 in
  let w := Sample.started exs in
  let w' := world_of (onmessage_functionCall Sample.adjust Sample.adjustNothing cl
                        (Sample.call "c1" "updateWorkoutState" "next_exercise") w) in
  In "next_exercise" controlTrainer_actions /\
  workoutState w = mkWorkoutState true 0 1 0 false /\
  workoutState w' = workoutState w /\
  activeExercises w' = activeExercises w /\
  intervals w' = intervals w /\
  timeouts w' = timeouts w /\
  toolResponses (sessionCalls w') = [(7%nat, "c1", "updateWorkoutState", "ok")].
Proof.
  cbn zeta. split; [cbn; tauto|]. repeat split; reflexivity.
Qed.

(** * Further properties of the callbacks *)

#[local] Set Warnings "-clear-no-such-hyp".

(** ** From the first set to the teardown *)

Lemma totalSets_nonneg (exs : list Exercise) :
  Forall (fun ex => 1 <= targetSets ex) exs -> 0 <= totalSets exs.
Proof. induction 1; cbn; lia. Qed.

Lemma finish_set_timeouts (cl : Closure) (w : World) :
  let prev := workoutState w in
  timeouts (world_of (handleTrainerAction cl (Some "finish_set") w)) =
    match js_index (cl_activeExercises cl) (currentExerciseIndex prev) with
    | None => timeouts w
    | Some ex =>
        if (currentSet prev >=? targetSets ex)
           && (currentExerciseIndex prev >=? Z.of_nat (length (cl_activeExercises cl)) - 1)
        then (timeouts w ++ [StopWorkoutAfter 2000 (cl_activeExercises cl)])%list
        else timeouts w
    end.
Proof.
  intros prev. unfold handleTrainerAction, setWorkoutState. fold prev.
  destruct (js_index (cl_activeExercises cl) (currentExerciseIndex prev)) as [ex|] eqn:Hex.
  2:{ by rewrite (finish_set_undefined _ _ _ Hex). }
  destruct (Z.geb_spec (currentSet prev) (targetSets ex)) as [Hge|Hlt].
  - destruct (Z.geb_spec (currentExerciseIndex prev)
                (Z.of_nat (length (cl_activeExercises cl)) - 1)) as [Hl|Hnl].
    + by rewrite (finish_set_complete _ _ _ _ Hex) by lia.
    + by rewrite (finish_set_advance _ _ _ _ Hex) by lia.
  - rewrite (finish_set_rest _ _ _ _ Hex) by lia. cbn.
    by destruct (startRestTimer_frame (restSeconds ex) w) as (_ & -> & _).
Qed.

(** One ['finish_set'] of a workout under way takes one set off what is
    still to go, and completes the workout when it was the last. *)
Lemma finish_set_step (cl : Closure) (w : World) :
  let exs := cl_activeExercises cl in
  let w' := world_of (handleTrainerAction cl (Some "finish_set") w) in
  Forall (fun ex => 1 <= targetSets ex) exs ->
  inProgress exs (workoutState w) ->
  1 <= setsToGo exs (workoutState w) /\
  (2 <= setsToGo exs (workoutState w) ->
     inProgress exs (workoutState w') /\
     setsToGo exs (workoutState w') = setsToGo exs (workoutState w) - 1 /\
     timeouts w' = timeouts w) /\
  (setsToGo exs (workoutState w) = 1 ->
     isActive (workoutState w') = false /\
     timeouts w' = (timeouts w ++ [StopWorkoutAfter 2000 exs])%list).
Proof.
  intros exs w' Hpos (Hact & ex & Hex & Hc1 & Hc2).
  assert (Hgo : setsToGo exs (workoutState w) =
            targetSets ex - currentSet (workoutState w) + 1
            + totalSets (drop (S (Z.to_nat (currentExerciseIndex (workoutState w)))) exs)).
  { unfold setsToGo. by rewrite Hex. }
  subst w'. rewrite finish_set_workoutState, finish_set_timeouts. fold exs.
  rewrite !Hgo, Hex. clear Hgo.
  pose proof (js_index_Some _ _ _ Hex) as [Hi0 Hilen].
  assert (Hlook : exs !! Z.to_nat (currentExerciseIndex (workoutState w)) = Some ex).
  { unfold js_index in Hex. by destruct (0 <=? currentExerciseIndex (workoutState w)). }
  set (i := currentExerciseIndex (workoutState w)) in *.
  set (c := currentSet (workoutState w)) in *.
  assert (Htail : 0 <= totalSets (drop (S (Z.to_nat i)) exs)).
  { apply totalSets_nonneg. by apply Forall_drop. }
  destruct (Z.geb_spec c (targetSets ex)) as [Hge|Hlt].
  - destruct (Z.geb_spec i (Z.of_nat (length exs) - 1)) as [Hl|Hnl]; cbn [andb].
    + rewrite drop_ge by lia. cbn [totalSets].
      split; [lia|]. split; [lia|]. intros _. by split.
    + assert (Hnext : is_Some (exs !! S (Z.to_nat i))).
      { apply lookup_lt_is_Some. lia. }
      destruct Hnext as [ex' Hex'].
      rewrite (drop_S _ _ _ Hex') in *. cbn [totalSets] in *.
      assert (Hp' : 1 <= targetSets ex').
      { eapply Forall_lookup_1 in Hpos; [|exact Hex']. exact Hpos. }
      assert (Htail' : 0 <= totalSets (drop (S (S (Z.to_nat i))) exs)).
      { apply totalSets_nonneg. by apply Forall_drop. }
      assert (Hex2 : js_index exs (i + 1) = Some ex').
      { unfold js_index. destruct (Z.leb_spec 0 (i + 1)); [|lia].
        by replace (Z.to_nat (i + 1)) with (S (Z.to_nat i)) by lia. }
      split; [lia|]. split; [|lia]. intros _.
      unfold inProgress, setsToGo. cbn. rewrite Hex2.
      replace (Z.to_nat (i + 1)) with (S (Z.to_nat i)) by lia.
      split; [|split; [lia|reflexivity]].
      split; [exact Hact|]. exists ex'. split; [reflexivity|lia].
  - cbn [andb]. split; [lia|]. split; [|lia]. intros _.
    unfold inProgress, setsToGo. cbn. fold i. rewrite Hex.
    split; [|split; [lia|reflexivity]].
    split; [exact Hact|]. exists ex. split; [reflexivity|lia].
Qed.

Lemma times_finish_set_S (cl : Closure) (k : nat) (w : World) :
  times (S k) (handleTrainerAction cl (Some "finish_set")) w =
    times k (handleTrainerAction cl (Some "finish_set"))
      (world_of (handleTrainerAction cl (Some "finish_set") w)).
Proof. cbn [times]. unfold bind at 1. by rewrite handleTrainerAction_returns. Qed.

(** X1: a workout under way on exercises that each ask for at least one
    set stays active through every ['finish_set'] but the last of the sets
    still to go, with no teardown scheduled; the last one clears [isActive]
    and schedules [stopWorkout] once.  For a workout at its first set of
    its first exercise that is after exactly the sum of all [targetSets]
    calls. *)
Theorem workout_completes_after_all_sets (cl : Closure) (w : World) :
  let exs := cl_activeExercises cl in
  let finish := handleTrainerAction cl (Some "finish_set") in
  let total := Z.to_nat (setsToGo exs (workoutState w)) in
  Forall (fun ex => 1 <= targetSets ex) exs ->
  inProgress exs (workoutState w) ->
  (forall k, (k < total)%nat ->
     isActive (workoutState (world_of (times k finish w))) = true /\
     timeouts (world_of (times k finish w)) = timeouts w) /\
  isActive (workoutState (world_of (times total finish w))) = false /\
  timeouts (world_of (times total finish w)) =
    (timeouts w ++ [StopWorkoutAfter 2000 exs])%list /\
  (currentExerciseIndex (workoutState w) = 0 -> currentSet (workoutState w) = 1 ->
     setsToGo exs (workoutState w) = totalSets exs).
Proof.
  intros exs finish total Hpos Hprog. subst exs.
  assert (Hmain : forall n w0,
            inProgress (cl_activeExercises cl) (workoutState w0) ->
            setsToGo (cl_activeExercises cl) (workoutState w0) = Z.of_nat (S n) ->
            (forall k, (k < S n)%nat ->
               isActive (workoutState (world_of (times k finish w0))) = true /\
               timeouts (world_of (times k finish w0)) = timeouts w0) /\
            isActive (workoutState (world_of (times (S n) finish w0))) = false /\
            timeouts (world_of (times (S n) finish w0)) =
              (timeouts w0 ++ [StopWorkoutAfter 2000 (cl_activeExercises cl)])%list).
  { induction n as [|n IH]; intros w0 Hp Hgo.
    - destruct (finish_set_step cl w0 Hpos Hp) as (_ & _ & Hlast).
      destruct (Hlast Hgo) as [Hoff Hto]. split.
      + intros k Hk. replace k with O by lia. cbn. split; [apply Hp|reflexivity].
      + unfold finish. rewrite times_finish_set_S. cbn. by split.
    - destruct (finish_set_step cl w0 Hpos Hp) as (_ & Hstep & _).
      destruct Hstep as (Hp' & Hgo' & Hto'); [lia|].
      destruct (IH _ Hp') as (Hbefore & Hoff & Hto); [lia|].
      split.
      + intros [|k] Hk; [cbn; split; [apply Hp|reflexivity]|].
        unfold finish. rewrite times_finish_set_S.
        destruct (Hbefore k) as [Ha Ht]; [lia|]. split; [exact Ha|].
        unfold finish in Ht. by rewrite Ht.
      + unfold finish in *. rewrite times_finish_set_S. split; [exact Hoff|].
        by rewrite Hto, Hto'. }
  destruct (finish_set_step cl w Hpos Hprog) as (Hge1 & _).
  destruct (Hmain (Nat.pred total) w Hprog) as (Hbefore & Hoff & Hto).
  { unfold total. lia. }
  replace (S (Nat.pred total)) with total in * by (unfold total; lia).
  split; [exact Hbefore|]. split; [exact Hoff|]. split; [exact Hto|].
  intros Hi Hc. unfold setsToGo. destruct Hprog as (_ & ex & Hex & _).
  rewrite Hex. rewrite Hi in *. unfold js_index in Hex. cbn in Hex.
  destruct (cl_activeExercises cl) as [|ex0 exs0]; [discriminate|]. cbn in Hex. injection Hex as ->.
  cbn. rewrite Hc. change (Z.to_nat 0) with O. rewrite drop_0. lia.
Qed.

Lemma workout_completes_after_all_sets_witness :
  let cl := Sample.render [Sample.squat; Sample.plank] 0 in
  let finish := handleTrainerAction cl (Some "finish_set") in
  let w := Sample.started [Sample.squat; Sample.plank] in
  totalSets [Sample.squat; Sample.plank] = 4 /\
  isActive (workoutState (world_of (times 3 finish w))) = true /\
  isActive (workoutState (world_of (times 4 finish w))) = false /\
  timeouts (world_of (times 4 finish w)) =
    [StopWorkoutAfter 2000 [Sample.squat; Sample.plank]].
Proof.
  cbn zeta. split; [reflexivity|].
  destruct (workout_completes_after_all_sets
              (Sample.render [Sample.squat; Sample.plank] 0)
              (Sample.started [Sample.squat; Sample.plank]))
    as (Hbefore & Hoff & Hto & _).
  - repeat constructor; cbn; lia.
  - split; [reflexivity|]. exists Sample.squat. split; [reflexivity|cbn; lia].
  - destruct (Hbefore 3%nat) as [Ha _]; [vm_compute; lia|].
    split; [exact Ha|]. split; [exact Hoff|exact Hto].
Defined.

(** ** Stopping, step by step *)

(** [stopWorkout] up to the point where it builds the history record. *)
Lemma stopWorkout_unfold (exs : list Exercise) (clk : Clock) (w : World) :
  let w1 :=
    with_workoutState
      (mkWorkoutState false (currentExerciseIndex (workoutState w))
         (currentSet (workoutState w)) (timer (workoutState w))
         (isResting (workoutState w)))
      (with_isWorkoutActive false w) in
  let w2 :=
    match sessionRef w with
    | Some sess =>
        with_sessionRef None (with_sessionCalls (sessionCalls w ++ [(sess, Close)]) w1)
    | None => w1
    end in
  let w3 :=
    if truthy_handle (timerIntervalRef w)
    then match timerIntervalRef w with
         | Some h => with_intervals (delete h (intervals w2)) w2
         | None => w2
         end
    else w2 in
  stopWorkout exs clk w =
    match mapM stopWorkout_log exs w3 with
    | Returned logs w4 =>
        Returned tt
          (with_history
             (mkWorkoutSession (nowString clk) (isoString clk) logs :: history w4) w4)
    | Threw e w4 => Threw e w4
    end.
Proof.
  cbn zeta. unfold stopWorkout.
  unfold bind at 1. cbn [setIsWorkoutActive modify].
  unfold bind at 1. cbn [setWorkoutState ret].
  set (w1 := with_workoutState _ _).
  unfold bind at 1.
  set (w2 := match sessionRef w with
             | Some sess =>
                 with_sessionRef None (with_sessionCalls (sessionCalls w ++ [(sess, Close)]) w1)
             | None => w1
             end).
  assert (H2 : (let* s := gets sessionRef in
         match s with
         | Some sess => sessionCall sess Close;;; modify (with_sessionRef None)
         | None => ret tt
         end) w1 = Returned tt w2).
  { unfold bind, gets, w2. cbn. by destruct (sessionRef w). }
  rewrite H2. clear H2.
  unfold bind at 1.
  set (w3 := if truthy_handle (timerIntervalRef w)
             then match timerIntervalRef w with
                  | Some h => with_intervals (delete h (intervals w2)) w2
                  | None => w2
                  end
             else w2).
  assert (H3 : (let* r := gets timerIntervalRef in
         if truthy_handle r then clearInterval r else ret tt) w2 = Returned tt w3).
  { unfold bind, gets, w3.
    assert (Hr : timerIntervalRef w2 = timerIntervalRef w)
      by (unfold w2; by destruct (sessionRef w)).
    rewrite Hr. destruct (truthy_handle (timerIntervalRef w)); [|done].
    by destruct (timerIntervalRef w). }
  rewrite H3. clear H3.
  unfold bind at 1. by destruct (mapM stopWorkout_log exs w3).
Qed.

(** What [stopWorkout] has done by the time it returns or raises. *)
Lemma stopWorkout_world (exs : list Exercise) (clk : Clock) (w : World) :
  let w' := world_of (stopWorkout exs clk w) in
  workoutState w' =
    mkWorkoutState false (currentExerciseIndex (workoutState w))
      (currentSet (workoutState w)) (timer (workoutState w))
      (isResting (workoutState w)) /\
  isWorkoutActive w' = false /\
  sessionRef w' = None /\
  sessionCalls w' =
    (sessionCalls w ++
     match sessionRef w with
     | Some sess => [(sess, Close)]
     | None => []
     end)%list /\
  intervals w' =
    (if truthy_handle (timerIntervalRef w)
     then match timerIntervalRef w with
          | Some h => delete h (intervals w)
          | None => intervals w
          end
     else intervals w) /\
  timerIntervalRef w' = timerIntervalRef w /\
  nextHandle w' = nextHandle w /\
  timeouts w' = timeouts w /\
  activeExercises w' = activeExercises w.
Proof.
  cbn zeta. rewrite stopWorkout_unfold.
  match goal with |- context [mapM stopWorkout_log exs ?x] => set (w3 := x) end.
  pose proof (stopWorkout_logs_world exs w3) as Hw.
  assert (H3 : forall w4, w4 = w3 ->
            workoutState w4 =
              mkWorkoutState false (currentExerciseIndex (workoutState w))
                (currentSet (workoutState w)) (timer (workoutState w))
                (isResting (workoutState w)) /\
            isWorkoutActive w4 = false /\ sessionRef w4 = None /\
            sessionCalls w4 =
              (sessionCalls w ++
               match sessionRef w with
               | Some sess => [(sess, Close)]
               | None => []
               end)%list /\
            intervals w4 =
              (if truthy_handle (timerIntervalRef w)
               then match timerIntervalRef w with
                    | Some h => delete h (intervals w)
                    | None => intervals w
                    end
               else intervals w) /\
            timerIntervalRef w4 = timerIntervalRef w /\
            nextHandle w4 = nextHandle w /\
            timeouts w4 = timeouts w /\
            activeExercises w4 = activeExercises w).
  { intros w4 ->. unfold w3.
    destruct (truthy_handle (timerIntervalRef w));
      destruct (timerIntervalRef w) eqn:Er; destruct (sessionRef w) eqn:Es;
      cbn; rewrite ?app_nil_r; repeat split; try reflexivity; congruence. }
  destruct (mapM stopWorkout_log exs w3) as [logs w4|e w4]; cbn in Hw; cbn;
    by apply H3.
Qed.

Lemma stopWorkout_logs_raise (exs : list Exercise) (w : World) :
  Exists (fun ex => ~ validSets ex) exs ->
  mapM stopWorkout_log exs w = Threw RangeError w.
Proof.
  induction exs as [|ex exs IH]; intros Hbad; [by apply Exists_nil in Hbad|].
  cbn [mapM]. unfold bind at 1. unfold stopWorkout_log at 1, bind at 1, Array_fill.
  destruct ((0 <=? targetSets ex) && (targetSets ex <? 2 ^ 32)) eqn:Hv.
  - cbn. unfold bind at 1. rewrite IH; [reflexivity|].
    apply Exists_cons in Hbad as [Hbad|Hbad]; [|exact Hbad].
    exfalso. apply Hbad. unfold validSets.
    apply andb_true_iff in Hv as [H1%Z.leb_le H2%Z.ltb_lt]. lia.
  - reflexivity.
Qed.

Lemma TimerInv_cleared (w : World) :
  TimerInv w ->
  (if truthy_handle (timerIntervalRef w)
   then match timerIntervalRef w with
        | Some h => delete h (intervals w)
        | None => intervals w
        end
   else intervals w) = ∅.
Proof.
  intros (Hn & Href & Hlive). apply map_eq. intros k. rewrite lookup_empty.
  destruct (timerIntervalRef w) as [r|] eqn:Er.
  - specialize (Href r eq_refl). cbn. destruct (Z.eqb_spec r 0); [lia|]. cbn.
    destruct (decide (k = r)) as [->|Hne]; [apply lookup_delete_eq|].
    rewrite lookup_delete_ne by congruence.
    destruct (intervals w !! k) eqn:E; [|done].
    assert (Some r = Some k) by (apply Hlive; eauto). congruence.
  - cbn. destruct (intervals w !! k) eqn:E; [|done].
    assert (None = Some k) by (apply Hlive; eauto). discriminate.
Qed.

(** X2: the history record [stopWorkout] writes is a summary of targets,
    not of work done: it carries the clock's id and date, lists every
    captured exercise in order under its id, and gives each one exactly
    [targetSets] sets, every one of them with [targetReps] reps and no
    weight or exertion. *)
Theorem stop_logs_targets_for_every_set (exs : list Exercise) (clk : Clock) (w : World) :
  Forall validSets exs ->
  exists w' record,
    stopWorkout exs clk w = Returned tt w' /\
    history w' = record :: history w /\
    ws_id record = nowString clk /\
    ws_date record = isoString clk /\
    length (ws_exercises record) = length exs /\
    forall i ex,
      exs !! i = Some ex ->
      exists log,
        ws_exercises record !! i = Some log /\
        exerciseId log = ex_id ex /\
        Z.of_nat (length (sets log)) = targetSets ex /\
        Forall (fun s => s = mkSetLog (targetReps ex) None None) (sets log).
Proof.
  intros Hv. destruct (stopWorkout_spec exs clk w Hv) as (w' & Hrun & Hh & _).
  exists w', (sessionRecord exs clk). split; [exact Hrun|]. split; [exact Hh|].
  split; [reflexivity|]. split; [reflexivity|].
  split; [cbn; apply length_map|].
  intros i ex Hi. eexists. split.
  { cbn. rewrite list_lookup_fmap, Hi. reflexivity. }
  cbn. split; [reflexivity|]. split.
  - rewrite length_replicate.
    eapply Forall_lookup_1 in Hv; [|exact Hi]. destruct Hv. lia.
  - apply Forall_forall. intros s Hs. by apply elem_of_replicate in Hs as [-> _].
Qed.

Lemma stop_logs_targets_for_every_set_witness :
  exists w',
    stopWorkout [Sample.squat; Sample.plank] Sample.noon
      (Sample.started [Sample.squat; Sample.plank]) = Returned tt w' /\
    exists record,
      history w' = [record] /\
      length (ws_exercises record) = 2%nat.
Proof.
  destruct (stop_logs_targets_for_every_set [Sample.squat; Sample.plank] Sample.noon
              (Sample.started [Sample.squat; Sample.plank]))
    as (w' & record & Hrun & Hh & _ & _ & Hlen & _).
  - repeat constructor; cbn; lia.
  - exists w'. split; [exact Hrun|]. exists record. split; [exact Hh|exact Hlen].
Defined.

(** X3: when a captured exercise has a [targetSets] that [Array] does not
    accept (negative, or [2^32] and more), [stopWorkout] raises
    [RangeError] while it builds the record.  By then the workout is
    marked inactive and the session closed and dropped; the history is
    left as it was. *)
Theorem stop_raises_on_bad_set_count (exs : list Exercise) (clk : Clock) (w : World) :
  Exists (fun ex => ~ validSets ex) exs ->
  exists w',
    stopWorkout exs clk w = Threw RangeError w' /\
    history w' = history w /\
    isWorkoutActive w' = false /\
    isActive (workoutState w') = false /\
    sessionRef w' = None /\
    sessionCalls w' =
      (sessionCalls w ++
       match sessionRef w with
       | Some sess => [(sess, Close)]
       | None => []
       end)%list.
Proof.
  intros Hbad.
  destruct (stopWorkout_world exs clk w) as (Hs & Ha & Hr & Hc & _).
  pose proof (stopWorkout_unfold exs clk w) as Hu. cbn zeta in Hu.
  rewrite (stopWorkout_logs_raise _ _ Hbad) in Hu.
  rewrite Hu in *. cbn [world_of] in *.
  eexists. split; [reflexivity|].
  split; [|split; [exact Ha|split; [by rewrite Hs|split; [exact Hr|exact Hc]]]].
  destruct (truthy_handle (timerIntervalRef w));
    destruct (timerIntervalRef w); destruct (sessionRef w); reflexivity.
Qed.

Lemma stop_raises_on_bad_set_count_witness :
  exists w',
    stopWorkout [mkExercise "x" "X" "" "" 5 (-1) 30 None] Sample.noon
      (Sample.started [Sample.squat]) = Threw RangeError w' /\
    history w' = [] /\
    sessionRef w' = None.
Proof.
  destruct (stop_raises_on_bad_set_count [mkExercise "x" "X" "" "" 5 (-1) 30 None]
              Sample.noon (Sample.started [Sample.squat]))
    as (w' & Hrun & Hh & _ & _ & Hr & _).
  - apply Exists_cons_hd. unfold validSets. cbn. lia.
  - exists w'. split; [exact Hrun|]. split; [exact Hh|exact Hr].
Defined.

(** X4: [stopWorkout] cancels the rest timer: in a world where at most
    the interval [timerIntervalRef] names is live, no interval is live
    afterwards (also when [stopWorkout] raises), so no later tick changes
    anything. *)
Theorem stop_cancels_rest_timer (exs : list Exercise) (clk : Clock) (w : World) :
  TimerInv w ->
  let w' := world_of (stopWorkout exs clk w) in
  intervals w' = ∅ /\
  forall h, restTimerTick h w' = Returned tt w'.
Proof.
  intros Hinv w'.
  destruct (stopWorkout_world exs clk w) as (_ & _ & _ & _ & Hi & _).
  fold w' in Hi. rewrite (TimerInv_cleared w Hinv) in Hi.
  split; [exact Hi|]. intros h.
  unfold restTimerTick, bind at 1, gets. by rewrite Hi, lookup_empty.
Qed.

Lemma stop_cancels_rest_timer_witness :
  let w1 := world_of (handleTrainerAction (Sample.render [Sample.squat] 0)
                        (Some "finish_set") (Sample.started [Sample.squat])) in
  let w' := world_of (stopWorkout [Sample.squat] Sample.noon w1) in
  intervals w1 = {[1 := 90]} /\
  intervals w' = ∅ /\
  restTimerTick 1 w' = Returned tt w'.
Proof.
  cbn zeta. split; [reflexivity|].
  destruct (stop_cancels_rest_timer [Sample.squat] Sample.noon
              (world_of (handleTrainerAction (Sample.render [Sample.squat] 0)
                           (Some "finish_set") (Sample.started [Sample.squat]))))
    as [Hi Ht].
  - apply handleTrainerAction_TimerInv.
    unfold TimerInv. cbn. split; [lia|]. split; [discriminate|].
    intros h [x Hx]. by rewrite lookup_empty in Hx.
  - split; [exact Hi|apply Ht].
Defined.

(** X5: a teardown still pending when the next workout is started stops
    that workout when it comes due: it marks the new workout inactive and
    writes a history record of the exercises the old [stopWorkout]
    captured, not of the new ones.  What becomes of the new session
    depends on when the timeout comes due.  After the handshake, when
    [sessionRef] holds the new session, that session is closed and
    dropped.  During the handshake, [stopWorkout] closes only what
    [sessionRef] held before, and the new session, stored when the
    handshake ends, stays open and in [sessionRef] on a workout that is
    marked stopped. *)
Theorem pending_teardown_stops_next_workout (w : World) (i : nat) (ms : Z)
    (exs newExercises : list Exercise) (sess : nat) (clk : Clock) :
  timeouts w !! i = Some (StopWorkoutAfter ms exs) ->
  Forall validSets exs ->
  let requested := world_of (handleStartWorkout_begin newExercises w) in
  let started := world_of (handleStartWorkout_resume sess requested) in
  started = world_of (handleStartWorkout newExercises sess w) /\
  isWorkoutActive started = true /\
  (exists w2,
     fireTimeout i clk started = Returned tt w2 /\
     isWorkoutActive w2 = false /\
     isActive (workoutState w2) = false /\
     sessionRef w2 = None /\
     sessionCalls w2 = (sessionCalls w ++ [(sess, Close)])%list /\
     activeExercises w2 = newExercises /\
     history w2 = sessionRecord exs clk :: history w) /\
  (exists w1 w2,
     fireTimeout i clk requested = Returned tt w1 /\
     handleStartWorkout_resume sess w1 = Returned tt w2 /\
     isWorkoutActive w2 = false /\
     isActive (workoutState w2) = false /\
     sessionRef w2 = Some sess /\
     sessionCalls w2 =
       (sessionCalls w ++
        match sessionRef w with
        | Some old => [(old, Close)]
        | None => []
        end)%list /\
     activeExercises w2 = newExercises /\
     history w2 = sessionRecord exs clk :: history w).
Proof.
  intros Hpending Hv requested started.
  split; [reflexivity|]. split; [reflexivity|]. split.
  - assert (Hp1 : timeouts started !! i = Some (StopWorkoutAfter ms exs)) by exact Hpending.
    rewrite (fireTimeout_stopWorkout i clk started ms exs Hp1).
    set (w1' := with_timeouts _ started).
    destruct (stopWorkout_spec exs clk w1' Hv) as (w2 & Hrun & Hh & _).
    destruct (stopWorkout_world exs clk w1') as (Hs & Ha & Hr & Hc & _ & _ & _ & _ & He).
    rewrite Hrun in *. cbn [world_of] in *.
    exists w2. split; [reflexivity|]. split; [exact Ha|].
    split; [by rewrite Hs|]. split; [exact Hr|]. split; [exact Hc|].
    split; [exact He|exact Hh].
  - assert (Hp1 : timeouts requested !! i = Some (StopWorkoutAfter ms exs))
      by exact Hpending.
    rewrite (fireTimeout_stopWorkout i clk requested ms exs Hp1).
    set (w1' := with_timeouts _ requested).
    destruct (stopWorkout_spec exs clk w1' Hv) as (w1 & Hrun & Hh & _).
    destruct (stopWorkout_world exs clk w1') as (Hs & Ha & Hr & Hc & _ & _ & _ & _ & He).
    rewrite Hrun in *. cbn [world_of] in *.
    exists w1. eexists. split; [reflexivity|]. split; [reflexivity|]. cbn.
    split; [exact Ha|]. split; [by rewrite Hs|]. split; [reflexivity|].
    split; [exact Hc|]. split; [exact He|exact Hh].
Qed.

Lemma pending_teardown_stops_next_workout_witness :
  let cl := Sample.render [Sample.plank] 0 in
  let completed := world_of (handleTrainerAction cl (Some "finish_set")
                               (Sample.started [Sample.plank])) in
  let left := world_of (stopWorkout [Sample.plank] Sample.noon completed) in
  let requested := world_of (handleStartWorkout_begin [Sample.squat] left) in
  let started := world_of (handleStartWorkout_resume 8 requested) in
  (exists w2,
     fireTimeout 0 Sample.later started = Returned tt w2 /\
     isWorkoutActive w2 = false /\
     sessionRef w2 = None /\
     sessionCalls w2 = [(7%nat, Close); (8%nat, Close)] /\
     history w2 =
       [sessionRecord [Sample.plank] Sample.later;
        sessionRecord [Sample.plank] Sample.noon]) /\
  (exists w1 w2,
     fireTimeout 0 Sample.later requested = Returned tt w1 /\
     handleStartWorkout_resume 8 w1 = Returned tt w2 /\
     isWorkoutActive w2 = false /\
     sessionRef w2 = Some 8%nat /\
     sessionCalls w2 = [(7%nat, Close)] /\
     history w2 =
       [sessionRecord [Sample.plank] Sample.later;
        sessionRecord [Sample.plank] Sample.noon]).
Proof.
  cbn zeta.
  destruct (pending_teardown_stops_next_workout
              (world_of (stopWorkout [Sample.plank] Sample.noon
                 (world_of (handleTrainerAction (Sample.render [Sample.plank] 0)
                              (Some "finish_set") (Sample.started [Sample.plank])))))
              0 2000 [Sample.plank] [Sample.squat] 8 Sample.later)
    as (_ & _ & Hafter & Hduring).
  - reflexivity.
  - repeat constructor; cbn; lia.
  - split.
    + destruct Hafter as (w2 & Hrun & Hoff & _ & Hr & Hc & _ & Hh).
      exists w2. split; [exact Hrun|]. split; [exact Hoff|]. split; [exact Hr|].
      split; [exact Hc|exact Hh].
    + destruct Hduring as (w1 & w2 & Hrun & Hres & Hoff & _ & Hr & Hc & _ & Hh).
      exists w1, w2. split; [exact Hrun|]. split; [exact Hres|]. split; [exact Hoff|].
      split; [exact Hr|]. split; [exact Hc|exact Hh].
Defined.

(** ** Resting and moving on *)

(** The countdown of the only live interval, to its end. *)
Lemma ticks_to_zero (h : Z) (N : nat) (w : World) :
  (1 <= N)%nat ->
  intervals w = {[h := Z.of_nat N]} ->
  timerIntervalRef w = Some h ->
  exists w',
    ticks h N w = Returned tt w' /\
    workoutState w' =
      mkWorkoutState (isActive (workoutState w)) (currentExerciseIndex (workoutState w))
        (currentSet (workoutState w)) 0 false /\
    intervals w' = ∅.
Proof.
  intros HN Hi Hr. destruct N as [|m]; [lia|].
  destruct (ticks_running h m (Z.of_nat (S m)) w Hi)
    as (wm & Hrun & Him & Hrm & _ & _ & Hset & Hidx & Hact); [lia|].
  pose proof (ticks_app h m 1 w) as Happ.
  replace (m + 1)%nat with (S m) in Happ by lia.
  rewrite Happ. unfold bind at 1. rewrite Hrun.
  cbn [ticks]. unfold bind at 1.
  rewrite (restTimerTick_last h (Z.of_nat (S m) - Z.of_nat m) wm Him);
    [|by rewrite Hrm|lia].
  eexists. split; [reflexivity|]. cbn. rewrite Hset, Hidx, Hact.
  split; [|reflexivity]. f_equal. lia.
Qed.

(** X6: the rest between two sets, from end to end.  In a world where at
    most the interval [timerIntervalRef] names is live, ['finish_set'] on
    a set that is not the last of an exercise with [restSeconds = N >= 1]
    starts the only live interval; [N] ticks later the workout is back to
    lifting: the next set is the current one, [timer] is 0, [isResting] is
    false and no interval is live. *)
Theorem rest_ends_in_next_set (cl : Closure) (w : World) (ex : Exercise) (N : nat) :
  let prev := workoutState w in
  TimerInv w ->
  js_index (cl_activeExercises cl) (currentExerciseIndex prev) = Some ex ->
  currentSet prev < targetSets ex ->
  restSeconds ex = Z.of_nat N ->
  (1 <= N)%nat ->
  exists w1 w2,
    handleTrainerAction cl (Some "finish_set") w = Returned tt w1 /\
    intervals w1 = {[nextHandle w := Z.of_nat N]} /\
    workoutState w1 =
      mkWorkoutState (isActive prev) (currentExerciseIndex prev) (currentSet prev + 1)
        (Z.of_nat N) true /\
    ticks (nextHandle w) N w1 = Returned tt w2 /\
    workoutState w2 =
      mkWorkoutState (isActive prev) (currentExerciseIndex prev) (currentSet prev + 1)
        0 false /\
    intervals w2 = ∅.
Proof.
  intros prev Hinv Hex Hlt Hrest HN.
  assert (Hrun : handleTrainerAction cl (Some "finish_set") w =
            Returned tt
              (with_workoutState
                 (mkWorkoutState (isActive prev) (currentExerciseIndex prev)
                    (currentSet prev + 1) (Z.of_nat N) true)
                 (with_timerIntervalRef (Some (nextHandle w))
                    (with_nextHandle (nextHandle w + 1)
                       (with_intervals {[nextHandle w := Z.of_nat N]} w))))).
  { unfold handleTrainerAction, setWorkoutState. fold prev.
    rewrite (finish_set_rest _ _ _ _ Hex Hlt).
    rewrite (startRestTimer_spec _ _ Hinv), Hrest. reflexivity. }
  set (w1 := with_workoutState _ _) in Hrun.
  destruct (ticks_to_zero (nextHandle w) N w1 HN eq_refl eq_refl) as (w2 & Ht & Hs & Hi).
  exists w1, w2. split; [exact Hrun|].
  split; [reflexivity|]. split; [reflexivity|].
  split; [exact Ht|]. split; [exact Hs|exact Hi].
Qed.

Lemma rest_ends_in_next_set_witness :
  exists w1 w2,
    handleTrainerAction (Sample.render [Sample.plank; Sample.squat] 1) (Some "finish_set")
      (with_workoutState (mkWorkoutState true 1 1 0 false)
         (Sample.started [Sample.plank; Sample.squat])) = Returned tt w1 /\
    ticks 1 90 w1 = Returned tt w2 /\
    workoutState w2 = mkWorkoutState true 1 2 0 false /\
    intervals w2 = ∅.
Proof.
  destruct (rest_ends_in_next_set (Sample.render [Sample.plank; Sample.squat] 1)
              (with_workoutState (mkWorkoutState true 1 1 0 false)
                 (Sample.started [Sample.plank; Sample.squat]))
              Sample.squat 90)
    as (w1 & w2 & Hrun & _ & _ & Ht & Hs & Hi).
  - unfold TimerInv. cbn. split; [lia|]. split; [discriminate|].
    intros h [x Hx]. by rewrite lookup_empty in Hx.
  - reflexivity.
  - cbn. lia.
  - reflexivity.
  - lia.
  - exists w1, w2. split; [exact Hrun|]. split; [exact Ht|]. split; [exact Hs|exact Hi].
Defined.

(** X7: moving on to the next exercise does not cancel a rest timer that
    is still running.  ['finish_set'] on the last set of an exercise that
    is not the last zeroes [timer] and clears [isResting] but leaves the
    interval live; its next tick writes the seconds it has left into
    [timer], so the state then shows a running countdown while not
    resting. *)
Theorem advancing_leaves_rest_timer_running (cl : Closure) (w : World) (ex : Exercise)
    (h left : Z) :
  let prev := workoutState w in
  intervals w = {[h := left]} ->
  2 <= left ->
  js_index (cl_activeExercises cl) (currentExerciseIndex prev) = Some ex ->
  targetSets ex <= currentSet prev ->
  currentExerciseIndex prev < Z.of_nat (length (cl_activeExercises cl)) - 1 ->
  exists w1 w2,
    handleTrainerAction cl (Some "finish_set") w = Returned tt w1 /\
    workoutState w1 =
      mkWorkoutState (isActive prev) (currentExerciseIndex prev + 1) 1 0 false /\
    intervals w1 = {[h := left]} /\
    restTimerTick h w1 = Returned tt w2 /\
    workoutState w2 =
      mkWorkoutState (isActive prev) (currentExerciseIndex prev + 1) 1 (left - 1) false /\
    intervals w2 = {[h := left - 1]}.
Proof.
  intros prev Hi Hleft Hex Hge Hnl.
  eexists _, _. split.
  { unfold handleTrainerAction, setWorkoutState. fold prev.
    rewrite (finish_set_advance _ _ _ _ Hex Hge Hnl). reflexivity. }
  split; [reflexivity|]. split; [exact Hi|].
  split; [apply (restTimerTick_running h left); [exact Hi|lia]|].
  split; reflexivity.
Qed.

Lemma advancing_leaves_rest_timer_running_witness :
  let cl := Sample.render [Sample.squat; Sample.plank] 0 in
  let resting := world_of (handleTrainerAction cl (Some "finish_set")
                   (with_workoutState (mkWorkoutState true 0 2 0 false)
                      (Sample.started [Sample.squat; Sample.plank]))) in
  workoutState resting = mkWorkoutState true 0 3 90 true /\
  exists w1 w2,
    handleTrainerAction cl (Some "finish_set") resting = Returned tt w1 /\
    workoutState w1 = mkWorkoutState true 1 1 0 false /\
    restTimerTick 1 w1 = Returned tt w2 /\
    workoutState w2 = mkWorkoutState true 1 1 89 false.
Proof.
  cbn zeta. split; [reflexivity|].
  destruct (advancing_leaves_rest_timer_running
              (Sample.render [Sample.squat; Sample.plank] 0)
              (world_of (handleTrainerAction (Sample.render [Sample.squat; Sample.plank] 0)
                 (Some "finish_set")
                 (with_workoutState (mkWorkoutState true 0 2 0 false)
                    (Sample.started [Sample.squat; Sample.plank]))))
              Sample.squat 1 90)
    as (w1 & w2 & Hrun & Hs1 & _ & Ht & Hs2 & _).
  - reflexivity.
  - lia.
  - reflexivity.
  - vm_compute. discriminate.
  - vm_compute. reflexivity.
  - exists w1, w2. split; [exact Hrun|]. split; [exact Hs1|]. split; [exact Ht|exact Hs2].
Defined.

(** ** What the trainer action leaves alone *)

Lemma startRestTimer_playback_frame (seconds : Z) (w : World) :
  let w' := world_of (startRestTimer seconds w) in
  isWorkoutActive w' = isWorkoutActive w /\ isModelSpeaking w' = isModelSpeaking w /\
  sourcesRef w' = sourcesRef w /\ nextStartTimeRef w' = nextStartTimeRef w /\
  stopCalls w' = stopCalls w /\ speakingCalls w' = speakingCalls w.
Proof.
  unfold startRestTimer, bind, gets.
  destruct (truthy_handle (timerIntervalRef w)); [destruct (timerIntervalRef w)|];
    cbn; auto 10.
Qed.

(** X8: the trainer action stays inside the workout state machine.
    Whatever the action and whatever the exercises, it makes no call on
    the session, and leaves [sessionRef], the exercise list, the history,
    [isWorkoutActive] and the whole playback state as they were; and an
    action other than ['finish_set'] (or none at all) changes nothing
    whatsoever, even where ['finish_set'] would raise. *)
Theorem trainer_action_touches_only_the_workout (cl : Closure) (action : option string)
    (w : World) :
  let w' := world_of (handleTrainerAction cl action w) in
  handleTrainerAction cl action w = Returned tt w' /\
  sessionCalls w' = sessionCalls w /\
  sessionRef w' = sessionRef w /\
  activeExercises w' = activeExercises w /\
  history w' = history w /\
  isWorkoutActive w' = isWorkoutActive w /\
  isModelSpeaking w' = isModelSpeaking w /\
  sourcesRef w' = sourcesRef w /\
  nextStartTimeRef w' = nextStartTimeRef w /\
  stopCalls w' = stopCalls w /\
  speakingCalls w' = speakingCalls w /\
  (action <> Some "finish_set" -> w' = w).
Proof.
  cbn zeta. split; [apply handleTrainerAction_returns|].
  destruct (strict_eq action "finish_set") eqn:Ha.
  2:{ rewrite (handleTrainerAction_other _ _ _ Ha). cbn. repeat split; try reflexivity; try done. }
  assert (action = Some "finish_set") as ->.
  { destruct action as [a|]; [|discriminate]. cbn in Ha.
    by apply String.eqb_eq in Ha as ->. }
  unfold handleTrainerAction, setWorkoutState.
  destruct (js_index (cl_activeExercises cl) (currentExerciseIndex (workoutState w)))
    as [ex|] eqn:Hex.
  2:{ rewrite (finish_set_undefined _ _ _ Hex). cbn. repeat split; try reflexivity; done. }
  destruct (Z_lt_le_dec (currentSet (workoutState w)) (targetSets ex)) as [Hlt|Hge].
  - rewrite (finish_set_rest _ _ _ _ Hex Hlt). cbn.
    destruct (startRestTimer_frame (restSeconds ex) w) as (_ & _ & _ & ? & ? & ? & ?).
    destruct (startRestTimer_playback_frame (restSeconds ex) w)
      as (? & ? & ? & ? & ? & ?).
    repeat split; try assumption; try done.
  - destruct (Z_lt_le_dec (currentExerciseIndex (workoutState w))
                (Z.of_nat (length (cl_activeExercises cl)) - 1)) as [Hnl|Hl].
    + rewrite (finish_set_advance _ _ _ _ Hex Hge Hnl). cbn.
      repeat split; try reflexivity; done.
    + rewrite (finish_set_complete _ _ _ _ Hex Hge Hl). cbn.
      repeat split; try reflexivity; done.
Qed.

(** ** The component over time *)

Lemma at_most_one_key (m : gmap Z Z) (r : Z) :
  (forall h, is_Some (m !! h) -> h = r) -> (size m <= 1)%nat.
Proof.
  intros Honly. destruct (m !! r) as [v|] eqn:Hr.
  - assert (m = {[r := v]}) as ->; [|rewrite map_size_singleton; lia].
    apply map_eq. intros k. destruct (decide (k = r)) as [->|Hne].
    + by rewrite lookup_singleton_eq.
    + rewrite lookup_singleton_ne by done.
      destruct (m !! k) eqn:Hk; [|done]. exfalso. apply Hne, Honly. eauto.
  - assert (m = ∅) as ->; [|rewrite map_size_empty; lia].
    apply map_eq. intros k. rewrite lookup_empty.
    destruct (m !! k) eqn:Hk; [|done].
    assert (k = r) as -> by (apply Honly; eauto). congruence.
Qed.

Section OverTime.

Variable adjustExerciseByDifficulty : Exercise -> option string -> Exercise.
Variable adjustUndefined : option string -> option Exercise.

(** X9: from the mount on, whatever callbacks run and in whatever order
    (workouts started, trainer actions and difficulty changes of any
    closure, ticks of any handle, stops, timeouts coming due,
    interruptions, nodes ending), at most one rest timer is live, and it
    is the one [timerIntervalRef] names. *)
Theorem at_most_one_rest_timer (events : list Event) (saved : list WorkoutSession) :
  let w := timeline adjustExerciseByDifficulty adjustUndefined events (mounted saved) in
  (size (intervals w) <= 1)%nat /\
  forall h, is_Some (intervals w !! h) -> timerIntervalRef w = Some h.
Proof.
  cbn zeta.
  destruct (timeline_TimerInv adjustExerciseByDifficulty adjustUndefined events saved)
    as (_ & _ & Hlive).
  split; [|exact Hlive].
  destruct (timerIntervalRef (timeline adjustExerciseByDifficulty adjustUndefined events
                                (mounted saved))) as [r|] eqn:Er.
  - apply (at_most_one_key _ r). intros h Hh. specialize (Hlive h Hh). congruence.
  - apply (at_most_one_key _ 0). intros h Hh. specialize (Hlive h Hh). discriminate.
Qed.

Lemma dispatch_counters (e : Event) (w : World) :
  1 <= currentSet (workoutState w) /\ 0 <= currentExerciseIndex (workoutState w) ->
  let w' := world_of (dispatch adjustExerciseByDifficulty adjustUndefined e w) in
  1 <= currentSet (workoutState w') /\ 0 <= currentExerciseIndex (workoutState w').
Proof.
  intros [Hc Hi].
  destruct e as [exs sess|cl action|cl d|h|exs clk|i clk| |src|exs|sess]; cbn [dispatch]; cbn zeta.
  - cbn. lia.
  - destruct (strict_eq action "finish_set") eqn:Ha.
    2:{ by rewrite (handleTrainerAction_other _ _ _ Ha). }
    assert (action = Some "finish_set") as ->.
    { destruct action as [a|]; [|discriminate]. cbn in Ha.
      by apply String.eqb_eq in Ha as ->. }
    rewrite finish_set_workoutState.
    destruct (js_index _ _); [|by split].
    destruct (_ >=? _); [destruct (_ >=? _)|]; cbn; lia.
  - destruct (handleDifficultyChange_frame adjustExerciseByDifficulty adjustUndefined
                cl d w) as (_ & -> & _). by split.
  - rewrite restTimerTick_workoutState. destruct (intervals w !! h); cbn; by split.
  - destruct (stopWorkout_world exs clk w) as (-> & _). cbn. by split.
  - destruct (timeouts w !! i) as [[ms exs]|] eqn:Ht.
    + rewrite (fireTimeout_stopWorkout _ _ _ _ _ Ht).
      destruct (stopWorkout_world exs clk
                  (with_timeouts (take i (timeouts w) ++ drop (S i) (timeouts w)) w))
        as (-> & _). cbn. by split.
    + unfold fireTimeout, bind, gets. rewrite Ht. cbn. by split.
  - unfold onmessage_interrupted, bind, gets. rewrite stop_each. cbn. by split.
  - unfold source_onended, bind, gets. cbn.
    destruct (size (sourcesRef w ∖ {[src]}) =? 0)%nat; cbn; by split.
  - cbn. lia.
  - cbn. by split.
Qed.

(** X10: from the mount on, whatever callbacks run and in whatever order,
    [currentSet] is at least 1 and [currentExerciseIndex] at least 0. *)
Theorem counters_stay_in_range (events : list Event) (saved : list WorkoutSession) :
  let w := timeline adjustExerciseByDifficulty adjustUndefined events (mounted saved) in
  1 <= currentSet (workoutState w) /\ 0 <= currentExerciseIndex (workoutState w).
Proof.
  cbn zeta. unfold timeline.
  assert (H0 : 1 <= currentSet (workoutState (mounted saved)) /\
               0 <= currentExerciseIndex (workoutState (mounted saved))) by (cbn; lia).
  revert H0. generalize (mounted saved).
  induction events as [|e events IH]; intros w Hw; [exact Hw|].
  cbn [fold_left]. apply IH. by apply dispatch_counters.
Qed.

End OverTime.

(** ** Difficulty changes and the tool-call loop, continued *)

Section Bridge.

Variable adjustExerciseByDifficulty : Exercise -> option string -> Exercise.
Variable adjustUndefined : option string -> option Exercise.

(** X11: when the callback's captured exercise list agrees with the
    state cell at the captured index, a difficulty change with the
    session open returns, stores the adjusted exercise, and sends the
    model exactly one realtime text, which names the reps and sets that
    were stored. *)
Theorem difficulty_change_announces_what_it_stored (cl : Closure) (d : option string)
    (w : World) (sess : nat) (ex : Exercise) :
  let i := cl_currentExerciseIndex cl in
  let adjusted := adjustExerciseByDifficulty ex d in
  sessionRef w = Some sess ->
  js_index (cl_activeExercises cl) i = Some ex ->
  js_index (activeExercises w) i = Some ex ->
  exists w',
    handleDifficultyChange adjustExerciseByDifficulty adjustUndefined cl d w
      = Returned tt w' /\
    js_index (activeExercises w') i = Some adjusted /\
    sessionCalls w' =
      (sessionCalls w ++
       [(sess,
         SendRealtimeInput
           ("The user changed difficulty to " ++ string_of_value d
            ++ ". New goals: " ++ string_of_Z (targetReps adjusted)
            ++ " reps, " ++ string_of_Z (targetSets adjusted) ++ " sets.")%string)])%list.
Proof.
  intros i adjusted Hs Hcl Hcell.
  unfold handleDifficultyChange, bind, gets, setActiveExercises, modify, deref.
  cbn -[String.app string_of_Z]. fold i. rewrite Hs, Hcl, Hcell.
  cbn -[String.app string_of_Z].
  eexists. split; [reflexivity|]. cbn -[String.app string_of_Z].
  split; [|reflexivity].
  rewrite (js_index_insert _ _ _ _ _ Hcell). by rewrite decide_True.
Qed.

(** A function call on which [handleDifficultyChange] raises. *)
Lemma onmessage_functionCall_raise (cl : Closure) (fc : FunctionCall) (w : World) :
  notificationRaises adjustUndefined cl (sessionRef w) fc = true ->
  exists w',
    onmessage_functionCall adjustExerciseByDifficulty adjustUndefined cl fc w
      = Threw TypeError w' /\
    toolResponses (sessionCalls w') = toolResponses (sessionCalls w) /\
    workoutState w' = workoutState w.
Proof.
  unfold notificationRaises. intros Hr.
  apply andb_true_iff in Hr as [Hr Hnone].
  apply andb_true_iff in Hr as [Hr Hsess].
  apply andb_true_iff in Hr as [Hname Haction].
  unfold onmessage_functionCall. rewrite Hname, Haction.
  unfold bind at 1.
  unfold handleDifficultyChange, bind, gets, setActiveExercises, modify, deref.
  cbn -[String.app string_of_Z].
  destruct (sessionRef w); [|discriminate].
  destruct (js_index (cl_activeExercises cl) (cl_currentExerciseIndex cl)); [discriminate|].
  destruct (adjustUndefined (fc_args fc !! "value")); [discriminate|].
  cbn. eexists. split; [reflexivity|]. by split.
Qed.

(** X12: a difficulty change that raises while it informs the model ends
    the loop over the function calls.  The calls before it are answered
    as usual; the raising call itself and every call after it in the
    message get no tool response, and the handler's promise is rejected
    with [TypeError]. *)
Theorem raising_difficulty_change_ends_the_loop (cl : Closure)
    (before after : list FunctionCall) (fc : FunctionCall) (w : World) :
  Forall (fun c => notificationRaises adjustUndefined cl (sessionRef w) c = false) before ->
  notificationRaises adjustUndefined cl (sessionRef w) fc = true ->
  exists w',
    onmessage_toolCall adjustExerciseByDifficulty adjustUndefined cl
      (Some (before ++ fc :: after)%list) w = Threw TypeError w' /\
    toolResponses (sessionCalls w') =
      (toolResponses (sessionCalls w) ++
       map (fun c => (cl_sessionPromise cl, fc_id c, fc_name c, "ok"))
         (List.filter isUpdateWorkoutState before))%list.
Proof.
  cbn [onmessage_toolCall]. revert w.
  induction before as [|c before IH]; intros w Hbefore Hfc.
  - destruct (onmessage_functionCall_raise cl fc w Hfc) as (w' & Hrun & Ht & _).
    exists w'. cbn [app forEach]. unfold bind at 1. rewrite Hrun.
    split; [reflexivity|]. cbn. by rewrite app_nil_r.
  - apply Forall_cons in Hbefore as [Hc Hbefore].
    destruct (onmessage_functionCall_spec adjustExerciseByDifficulty adjustUndefined
                cl c w Hc) as (w1 & Hrun & Hs & Ht).
    destruct (IH w1) as (w' & Hrun' & Ht'); [by rewrite Hs|by rewrite Hs|].
    exists w'. cbn [app forEach]. unfold bind at 1. rewrite Hrun.
    split; [exact Hrun'|]. rewrite Ht', Ht. cbn [List.filter].
    destruct (isUpdateWorkoutState c); cbn [map]; by rewrite <- app_assoc.
Qed.

End Bridge.

Lemma difficulty_change_announces_what_it_stored_witness :
  exists w',
    handleDifficultyChange Sample.adjust Sample.adjustNothing
      (Sample.render [Sample.squat; Sample.plank] 0) (Some "Easy")
      (Sample.started [Sample.squat; Sample.plank]) = Returned tt w' /\
    (targetReps <$> js_index (activeExercises w') 0) = Some 3 /\
    sessionCalls w' =
      [(7%nat,
        SendRealtimeInput
          "The user changed difficulty to Easy. New goals: 3 reps, 3 sets.")].
Proof.
  destruct (difficulty_change_announces_what_it_stored Sample.adjust Sample.adjustNothing
              (Sample.render [Sample.squat; Sample.plank] 0) (Some "Easy")
              (Sample.started [Sample.squat; Sample.plank]) 7 Sample.squat
              eq_refl eq_refl eq_refl)
    as (w' & Hrun & Hex & Hcalls).
  exists w'. split; [exact Hrun|]. split; [|exact Hcalls].
  change (js_index (activeExercises w') 0
          = Some (Sample.adjust Sample.squat (Some "Easy"))) in Hex.
  rewrite Hex. reflexivity.
Defined.

Lemma raising_difficulty_change_ends_the_loop_witness :
  exists w',
    onmessage_toolCall Sample.adjust Sample.adjustNothing (Sample.render [] 0)
      (Some [Sample.call "c1" "updateWorkoutState" "dance";
             Sample.callDifficulty "c2" "Easy";
             Sample.call "c3" "updateWorkoutState" "finish_set"])
      (Sample.started [Sample.squat]) = Threw TypeError w' /\
    toolResponses (sessionCalls w') = [(7%nat, "c1", "updateWorkoutState", "ok")].
Proof.
  destruct (raising_difficulty_change_ends_the_loop Sample.adjust Sample.adjustNothing
              (Sample.render [] 0)
              [Sample.call "c1" "updateWorkoutState" "dance"]
              [Sample.call "c3" "updateWorkoutState" "finish_set"]
              (Sample.callDifficulty "c2" "Easy")
              (Sample.started [Sample.squat]))
    as (w' & Hrun & Hresp).
  - repeat constructor.
  - reflexivity.
  - exists w'. split; [exact Hrun|exact Hresp].
Defined.

(** ** Playback *)

(** X13: when the tracked audio nodes end, in whatever order, the
    speaking flag is cleared by the last one to end and by no other:
    [setIsModelSpeaking(false)] is called exactly once, and the tracked
    set is empty. *)
Theorem speaking_ends_with_the_last_node (ended : list nat) (w : World) :
  NoDup ended ->
  ended <> [] ->
  (forall s, s ∈ ended <-> s ∈ sourcesRef w) ->
  exists w',
    forEach source_onended ended w = Returned tt w' /\
    sourcesRef w' = ∅ /\
    isModelSpeaking w' = false /\
    speakingCalls w' = (speakingCalls w ++ [false])%list.
Proof.
  revert w. induction ended as [|s rest IH]; intros w Hnd Hne Hall; [done|].
  apply NoDup_cons in Hnd as [Hs Hnd].
  cbn [forEach]. unfold bind at 1. unfold source_onended at 1, bind, gets. cbn.
  destruct rest as [|s' rest'].
  - assert (Hempty : sourcesRef w ∖ {[s]} = ∅).
    { apply set_eq. intros x. specialize (Hall x). set_solver. }
    rewrite Hempty, size_empty. cbn. eexists. split; [reflexivity|]. by cbn.
  - assert (Hin : s' ∈ sourcesRef w ∖ {[s]}).
    { apply elem_of_difference. split; [apply Hall; set_solver|]. set_solver. }
    destruct (Nat.eqb_spec (size (sourcesRef w ∖ {[s]})) 0) as [Hz|Hnz].
    { apply size_empty_iff in Hz. set_solver. }
    cbn. destruct (IH (with_sourcesRef (sourcesRef w ∖ {[s]}) w)) as (w' & Hrun & Hrest);
      [exact Hnd|done| |].
    + intros x. cbn. specialize (Hall x). set_solver.
    + exists w'. split; [exact Hrun|exact Hrest].
Qed.

Lemma speaking_ends_with_the_last_node_witness :
  exists w',
    forEach source_onended [5%nat; 3%nat; 4%nat]
      (with_isModelSpeaking true (with_sourcesRef {[3%nat; 4%nat; 5%nat]} (mounted [])))
      = Returned tt w' /\
    sourcesRef w' = ∅ /\
    isModelSpeaking w' = false /\
    speakingCalls w' = [false].
Proof.
  apply (speaking_ends_with_the_last_node [5%nat; 3%nat; 4%nat]
           (with_isModelSpeaking true
              (with_sourcesRef {[3%nat; 4%nat; 5%nat]} (mounted [])))).
  - repeat constructor; set_solver.
  - discriminate.
  - intros s. cbn. set_solver.
Defined.

Lemma Qmax_left (x y : Q) : (y <= x)%Q -> Qmax x y = x.
Proof.
  intros Hle. unfold Qmax, GenericMinMax.gmax.
  destruct (Qcompare x y) eqn:Hc; try reflexivity.
  apply Qlt_alt in Hc. by apply Qlt_not_le in Hc.
Qed.

Lemma Qmax_right (x y : Q) : (x < y)%Q -> Qmax x y = y.
Proof.
  intros Hlt. unfold Qmax, GenericMinMax.gmax.
  destruct (Qcompare x y) eqn:Hc; [| reflexivity |].
  - apply Qeq_alt in Hc. rewrite Hc in Hlt. by apply Qlt_irrefl in Hlt.
  - apply Qgt_alt in Hc. exfalso. apply (Qlt_irrefl x). by apply (Qlt_trans x y x).
Qed.

Section Segments.

Variable decodeAudio : string -> option Q.

(** One run of the audio block on a payload that decodes. *)
Lemma onmessage_audio_scheduled (msg : LiveServerMessage) (now : Q) (p : Page)
    (data : string) (duration : Q) :
  audioBase64 msg = Some data ->
  data <> "" ->
  outputAudioContextRef p = true ->
  decodeAudio data = Some duration ->
  let when := Qmax (nextStartTimeRef (world p)) now in
  onmessage_audio decodeAudio msg now p =
    Fulfilled
      (mkPage
         (with_sourcesRef ({[nextNode p]} ∪ sourcesRef (world p))
            (with_nextStartTimeRef (when + duration)%Q
               (with_isModelSpeaking true
                  (with_speakingCalls (speakingCalls (world p) ++ [true]) (world p)))))
         (transcription p) (clearTimeouts p) true
         (startCalls p ++ [(nextNode p, when)]) (S (nextNode p))).
Proof.
  intros Ha Hd Hctx Hdec. unfold onmessage_audio. rewrite Ha, Hctx, Hdec. cbn.
  destruct (String.eqb_spec data ""); [done|]. cbn. reflexivity.
Qed.

(** X14: audio segments are scheduled back to back and never in the
    past.  Of two segments handled one after the other, each starts no
    earlier than the clock reading of its run; the second starts exactly
    where the first ends if the clock has not passed that point, and at
    the clock reading otherwise.  Both nodes are tracked and the speaking
    flag is set. *)
Theorem segments_are_scheduled_gapless (m1 m2 : LiveServerMessage) (t1 t2 : Q)
    (data1 data2 : string) (d1 d2 : Q) (p : Page) :
  audioBase64 m1 = Some data1 -> data1 <> "" -> decodeAudio data1 = Some d1 ->
  audioBase64 m2 = Some data2 -> data2 <> "" -> decodeAudio data2 = Some d2 ->
  outputAudioContextRef p = true ->
  let start1 := Qmax (nextStartTimeRef (world p)) t1 in
  let end1 := (start1 + d1)%Q in
  exists p1 p2 start2,
    onmessage_audio decodeAudio m1 t1 p = Fulfilled p1 /\
    onmessage_audio decodeAudio m2 t2 p1 = Fulfilled p2 /\
    startCalls p2 =
      (startCalls p ++ [(nextNode p, start1); (S (nextNode p), start2)])%list /\
    (t1 <= start1)%Q /\
    (t2 <= start2)%Q /\
    ((t2 <= end1)%Q -> start2 = end1) /\
    ((end1 < t2)%Q -> start2 = t2) /\
    nextStartTimeRef (world p2) = (start2 + d2)%Q /\
    sourcesRef (world p2) = {[S (nextNode p)]} ∪ ({[nextNode p]} ∪ sourcesRef (world p)) /\
    isModelSpeaking (world p2) = true.
Proof.
  intros Ha1 Hn1 Hd1 Ha2 Hn2 Hd2 Hctx start1 end1.
  pose proof (onmessage_audio_scheduled m1 t1 p data1 d1 Ha1 Hn1 Hctx Hd1) as H1.
  cbn zeta in H1. fold start1 in H1.
  match type of H1 with _ = Fulfilled ?q => set (p1 := q) in H1 end.
  pose proof (onmessage_audio_scheduled m2 t2 p1 data2 d2 Ha2 Hn2 eq_refl Hd2) as H2.
  cbn zeta in H2.
  match type of H2 with _ = Fulfilled ?q => set (p2 := q) in H2 end.
  exists p1, p2, (Qmax end1 t2). split; [exact H1|]. split; [exact H2|].
  cbn. split; [by rewrite <- app_assoc|].
  split; [apply Q.le_max_r|]. split; [apply Q.le_max_r|].
  split; [apply Qmax_left|]. split; [apply Qmax_right|]. by repeat split.
Qed.

(** X15: a message whose audio fails to decode is dropped from there on.
    The handler's promise is rejected; the tool calls of the message are
    neither applied nor answered and its interruption is not honoured;
    no node is started or tracked; and the speaking flag, set before the
    decoding, stays true. *)
Theorem undecodable_audio_drops_the_message
    (adjustExerciseByDifficulty : Exercise -> option string -> Exercise)
    (adjustUndefined : option string -> option Exercise)
    (cl : Closure) (msg : LiveServerMessage) (now : Q) (p : Page) (data : string) :
  audioBase64 msg = Some data ->
  data <> "" ->
  outputAudioContextRef p = true ->
  decodeAudio data = None ->
  exists p',
    onmessage adjustExerciseByDifficulty adjustUndefined decodeAudio cl msg now p
      = Rejected p' /\
    sessionCalls (world p') = sessionCalls (world p) /\
    workoutState (world p') = workoutState (world p) /\
    activeExercises (world p') = activeExercises (world p) /\
    sourcesRef (world p') = sourcesRef (world p) /\
    stopCalls (world p') = stopCalls (world p) /\
    startCalls p' = startCalls p /\
    isModelSpeaking (world p') = true.
Proof.
  intros Ha Hd Hctx Hdec. unfold onmessage, onmessage_audio. rewrite Ha.
  assert (Hctx' : outputAudioContextRef (onmessage_transcription msg p) = true).
  { unfold onmessage_transcription. destruct (serverContent msg) as [sc|]; [|exact Hctx].
    destruct (outputTranscription sc); [exact Hctx|].
    by destruct (turnComplete sc). }
  assert (Hw : world (onmessage_transcription msg p) = world p
               /\ startCalls (onmessage_transcription msg p) = startCalls p).
  { unfold onmessage_transcription. destruct (serverContent msg) as [sc|]; [|done].
    destruct (outputTranscription sc); [done|]. by destruct (turnComplete sc). }
  destruct Hw as [Hw Hsc].
  rewrite Hctx', Hdec. cbn. destruct (String.eqb_spec data ""); [done|]. cbn.
  eexists. split; [reflexivity|]. cbn. rewrite Hw, Hsc. by repeat split.
Qed.

End Segments.

(** X16: an interruption resets the schedule: the first segment handled
    after it starts at the (positive) clock reading of its run, however
    far ahead the schedule was, and it is the only node tracked. *)
Theorem first_segment_after_interruption_starts_now (decodeAudio : string -> option Q)
    (msg : LiveServerMessage) (now : Q) (p : Page) (data : string) (duration : Q) :
  audioBase64 msg = Some data ->
  data <> "" ->
  outputAudioContextRef p = true ->
  decodeAudio data = Some duration ->
  (0 < now)%Q ->
  exists w p',
    onmessage_interrupted true (world p) = Returned tt w /\
    onmessage_audio decodeAudio msg now (with_world w p) = Fulfilled p' /\
    startCalls p' = (startCalls p ++ [(nextNode p, now)])%list /\
    sourcesRef (world p') = {[nextNode p]} /\
    nextStartTimeRef (world p') = (now + duration)%Q.
Proof.
  intros Ha Hd Hctx Hdec Hnow.
  assert (Hint : exists w,
            onmessage_interrupted true (world p) = Returned tt w /\
            nextStartTimeRef w = 0%Q /\ sourcesRef w = ∅).
  { eexists. split.
    - unfold onmessage_interrupted. unfold bind at 1. unfold bind at 1, gets.
      rewrite stop_each. reflexivity.
    - cbn. by split. }
  destruct Hint as (w & Hrun & Hnext & Hsrc).
  exists w. eexists. split; [exact Hrun|].
  rewrite (onmessage_audio_scheduled decodeAudio msg now (with_world w p) data duration
             Ha Hd Hctx Hdec).
  split; [reflexivity|]. cbn. rewrite Hnext, Hsrc, (Qmax_right 0 now Hnow).
  split; [reflexivity|]. split; [|reflexivity].
  apply set_eq. intros x. set_solver.
Qed.

(** ** Transcription *)

(** X17: the timer that clears the transcription is never cancelled.  A
    turn-complete message schedules the clearing; a transcription that
    arrives afterwards replaces the text and leaves the timer pending; and
    when the timer comes due it wipes that newer text. *)
Theorem pending_clear_wipes_newer_transcription (turnEnd next : LiveServerMessage)
    (sc1 sc2 : ServerContent) (text : string) (p : Page) :
  serverContent turnEnd = Some sc1 ->
  outputTranscription sc1 = None ->
  turnComplete sc1 = true ->
  serverContent next = Some sc2 ->
  outputTranscription sc2 = Some text ->
  let p1 := onmessage_transcription turnEnd p in
  let p2 := onmessage_transcription next p1 in
  let p3 := clearTranscription (length (clearTimeouts p)) p2 in
  transcription p1 = transcription p /\
  clearTimeouts p1 = (clearTimeouts p ++ [3000])%list /\
  transcription p2 = text /\
  clearTimeouts p2 = clearTimeouts p1 /\
  transcription p3 = "" /\
  clearTimeouts p3 = clearTimeouts p.
Proof.
  intros Hs1 Ht1 Hc1 Hs2 Ht2. cbn zeta.
  unfold onmessage_transcription. rewrite Hs1, Ht1, Hc1, Hs2, Ht2. cbn.
  split; [reflexivity|]. split; [reflexivity|]. split; [reflexivity|].
  split; [reflexivity|].
  unfold clearTranscription. cbn.
  rewrite lookup_app_r by lia. rewrite Nat.sub_diag. cbn.
  split; [reflexivity|].
  rewrite take_app_length, drop_ge; [by rewrite app_nil_r|].
  rewrite length_app. cbn. lia.
Qed.

(** ** Concrete instances of the message handler *)

Lemma segments_are_scheduled_gapless_witness :
  exists p1 p2,
    onmessage_audio Scenario.decode (Scenario.audio "AAAA") 1%Q Scenario.listening
      = Fulfilled p1 /\
    onmessage_audio Scenario.decode (Scenario.audio "BBBB") (5 # 4)%Q p1 = Fulfilled p2 /\
    startCalls p2 = [(0%nat, 1%Q); (1%nat, (3 # 2)%Q)].
Proof.
  destruct (segments_are_scheduled_gapless Scenario.decode
              (Scenario.audio "AAAA") (Scenario.audio "BBBB") 1%Q (5 # 4)%Q
              "AAAA" "BBBB" (1 # 2)%Q (1 # 2)%Q Scenario.listening)
    as (p1 & p2 & start2 & H1 & H2 & Hcalls & _ & _ & Hgapless & _);
    try reflexivity; try discriminate.
  exists p1, p2. split; [exact H1|]. split; [exact H2|].
  rewrite Hcalls, Hgapless; [reflexivity|]. vm_compute. discriminate.
Defined.

Lemma undecodable_audio_drops_the_message_witness :
  exists p',
    onmessage Sample.adjust Sample.adjustNothing Scenario.decode
      (Sample.render [Sample.squat; Sample.plank] 0) (Scenario.loaded "garbled") 1%Q
      Scenario.listening = Rejected p' /\
    sessionCalls (world p') = [] /\
    workoutState (world p') = mkWorkoutState true 0 1 0 false /\
    isModelSpeaking (world p') = true.
Proof.
  destruct (undecodable_audio_drops_the_message Scenario.decode
              Sample.adjust Sample.adjustNothing
              (Sample.render [Sample.squat; Sample.plank] 0) (Scenario.loaded "garbled")
              1%Q Scenario.listening "garbled")
    as (p' & Hrun & Hcalls & Hstate & _ & _ & _ & _ & Hflag);
    try reflexivity; try discriminate.
  exists p'. split; [exact Hrun|]. split; [exact Hcalls|]. split; [exact Hstate|exact Hflag].
Defined.

Lemma first_segment_after_interruption_starts_now_witness :
  exists p1 w p',
    onmessage_audio Scenario.decode (Scenario.audio "AAAA") 1%Q Scenario.listening
      = Fulfilled p1 /\
    nextStartTimeRef (world p1) = (3 # 2)%Q /\
    onmessage_interrupted true (world p1) = Returned tt w /\
    onmessage_audio Scenario.decode (Scenario.audio "BBBB") (5 # 4)%Q (with_world w p1)
      = Fulfilled p' /\
    startCalls p' = [(0%nat, 1%Q); (1%nat, (5 # 4)%Q)] /\
    sourcesRef (world p') = {[1%nat]}.
Proof.
  eexists. 
  destruct (first_segment_after_interruption_starts_now Scenario.decode
              (Scenario.audio "BBBB") (5 # 4)%Q
              (page_of (onmessage_audio Scenario.decode (Scenario.audio "AAAA") 1%Q
                          Scenario.listening))
              "BBBB" (1 # 2)%Q)
    as (w & p' & Hint & Hrun & Hcalls & Hsrc & _);
    try reflexivity; try discriminate.
  exists w, p'. split; [reflexivity|]. split; [reflexivity|].
  split; [exact Hint|]. split; [exact Hrun|]. split; [exact Hcalls|exact Hsrc].
Defined.

Lemma pending_clear_wipes_newer_transcription_witness :
  let p1 := onmessage_transcription Scenario.turnEnd Scenario.listening in
  let p2 := onmessage_transcription (Scenario.caption "Two more reps") p1 in
  let p3 := clearTranscription 0 p2 in
  clearTimeouts p1 = [3000] /\
  transcription p2 = "Two more reps" /\
  transcription p3 = "".
Proof.
  cbn zeta.
  destruct (pending_clear_wipes_newer_transcription Scenario.turnEnd
              (Scenario.caption "Two more reps")
              (mkServerContent None true None false)
              (mkServerContent (Some "Two more reps") false None false)
              "Two more reps" Scenario.listening
              eq_refl eq_refl eq_refl eq_refl eq_refl)
    as (_ & Hc1 & Ht2 & _ & Ht3 & _).
  split; [exact Hc1|]. split; [exact Ht2|exact Ht3].
Defined.

(** ** Closures that outlive their render *)

(** X18: two difficulty changes made through one and the same closure
    (as the message handler's, which is created once per session)
    compound in the state cell, where the second adjusts what the first
    stored; but the second text sent to the model is computed from the
    exercise the closure captured, as if the first change had not
    happened. *)
Theorem repeated_difficulty_change_compounds
    (adjustExerciseByDifficulty : Exercise -> option string -> Exercise)
    (adjustUndefined : option string -> option Exercise)
    (cl : Closure) (d1 d2 : option string) (w : World) (sess : nat) (ex : Exercise) :
  let i := cl_currentExerciseIndex cl in
  let change := handleDifficultyChange adjustExerciseByDifficulty adjustUndefined cl in
  let once := adjustExerciseByDifficulty ex d1 in
  let twice := adjustExerciseByDifficulty once d2 in
  let announced := adjustExerciseByDifficulty ex d2 in
  sessionRef w = Some sess ->
  js_index (cl_activeExercises cl) i = Some ex ->
  js_index (activeExercises w) i = Some ex ->
  exists w1 w2,
    change d1 w = Returned tt w1 /\
    change d2 w1 = Returned tt w2 /\
    js_index (activeExercises w2) i = Some twice /\
    sessionCalls w2 =
      (sessionCalls w ++
       [(sess,
         SendRealtimeInput
           ("The user changed difficulty to " ++ string_of_value d1
            ++ ". New goals: " ++ string_of_Z (targetReps once)
            ++ " reps, " ++ string_of_Z (targetSets once) ++ " sets.")%string);
        (sess,
         SendRealtimeInput
           ("The user changed difficulty to " ++ string_of_value d2
            ++ ". New goals: " ++ string_of_Z (targetReps announced)
            ++ " reps, " ++ string_of_Z (targetSets announced) ++ " sets.")%string)])%list.
Proof.
  intros i change once twice announced Hs Hcl Hcell.
  assert (Hstep : forall d w0 e0,
            sessionRef w0 = Some sess ->
            js_index (activeExercises w0) i = Some e0 ->
            change d w0 =
              Returned tt
                (with_sessionCalls
                   (sessionCalls w0 ++
                    [(sess,
                      SendRealtimeInput
                        ("The user changed difficulty to " ++ string_of_value d
                         ++ ". New goals: "
                         ++ string_of_Z (targetReps (adjustExerciseByDifficulty ex d))
                         ++ " reps, "
                         ++ string_of_Z (targetSets (adjustExerciseByDifficulty ex d))
                         ++ " sets.")%string)])
                   (with_activeExercises
                      (<[Z.to_nat i := adjustExerciseByDifficulty e0 d]> (activeExercises w0))
                      w0))).
  { intros d w0 e0 Hs0 Hc0. unfold change.
    unfold handleDifficultyChange, bind, gets, setActiveExercises, modify, deref.
    cbn -[String.app string_of_Z]. fold i. rewrite Hs0, Hcl, Hc0. reflexivity. }
  eexists _, _. split; [apply (Hstep d1 w ex Hs Hcell)|]. split.
  { apply (Hstep d2 _ once); [exact Hs|].
    cbn. rewrite (js_index_insert _ _ _ _ _ Hcell). by rewrite decide_True. }
  cbn -[String.app string_of_Z]. split.
  - assert (Hin : js_index (<[Z.to_nat i := once]> (activeExercises w)) i = Some once).
    { rewrite (js_index_insert _ _ _ _ _ Hcell). by rewrite decide_True. }
    rewrite (js_index_insert _ _ _ _ _ Hin). by rewrite decide_True.
  - rewrite <- app_assoc. reflexivity.
Qed.

Lemma repeated_difficulty_change_compounds_witness :
  let cl := Sample.render [Sample.squat; Sample.plank] 0 in
  let change := handleDifficultyChange Sample.adjust Sample.adjustNothing cl in
  exists w1 w2,
    change (Some "Easy") (Sample.started [Sample.squat; Sample.plank]) = Returned tt w1 /\
    change (Some "Easy") w1 = Returned tt w2 /\
    (targetReps <$> js_index (activeExercises w2) 0) = Some 1 /\
    sessionCalls w2 =
      [(7%nat,
        SendRealtimeInput "The user changed difficulty to Easy. New goals: 3 reps, 3 sets.");
       (7%nat,
        SendRealtimeInput "The user changed difficulty to Easy. New goals: 3 reps, 3 sets.")].
Proof.
  cbn zeta.
  destruct (repeated_difficulty_change_compounds Sample.adjust Sample.adjustNothing
              (Sample.render [Sample.squat; Sample.plank] 0) (Some "Easy") (Some "Easy")
              (Sample.started [Sample.squat; Sample.plank]) 7 Sample.squat
              eq_refl eq_refl eq_refl)
    as (w1 & w2 & H1 & H2 & Hex & Hcalls).
  exists w1, w2. split; [exact H1|]. split; [exact H2|]. split.
  - change (js_index (activeExercises w2) 0
            = Some (Sample.adjust (Sample.adjust Sample.squat (Some "Easy")) (Some "Easy")))
      in Hex.
    rewrite Hex. reflexivity.
  - exact Hcalls.
Defined.

(** X19: a remote close only hides the session view.  [onclose] writes
    no history record, keeps [sessionRef], leaves the workout state as it
    is and does not cancel the rest timer; a timer left running that way
    goes on into the next workout, where its next tick overwrites the
    fresh [timer = 0]. *)
Theorem remote_close_leaves_the_rest_timer (w : World) (h left : Z)
    (newExercises : list Exercise) (sess : nat) :
  intervals w = {[h := left]} ->
  2 <= left ->
  exists w1 w2 w3,
    onclose w = Returned tt w1 /\
    isWorkoutActive w1 = false /\
    workoutState w1 = workoutState w /\
    history w1 = history w /\
    sessionRef w1 = sessionRef w /\
    sessionCalls w1 = sessionCalls w /\
    intervals w1 = {[h := left]} /\
    handleStartWorkout newExercises sess w1 = Returned tt w2 /\
    workoutState w2 = mkWorkoutState true 0 1 0 false /\
    restTimerTick h w2 = Returned tt w3 /\
    workoutState w3 = mkWorkoutState true 0 1 (left - 1) false.
Proof.
  intros Hi Hleft.
  eexists _, _, _. split; [reflexivity|]. cbn.
  do 5 (split; [reflexivity|]). split; [exact Hi|].
  split; [reflexivity|]. split; [reflexivity|].
  split; [apply (restTimerTick_running h left); [exact Hi|lia]|]. reflexivity.
Qed.

Lemma remote_close_leaves_the_rest_timer_witness :
  let resting := world_of (handleTrainerAction (Sample.render [Sample.squat] 0)
                             (Some "finish_set") (Sample.started [Sample.squat])) in
  exists w1 w2 w3,
    onclose resting = Returned tt w1 /\
    history w1 = [] /\
    handleStartWorkout [Sample.plank] 8 w1 = Returned tt w2 /\
    restTimerTick 1 w2 = Returned tt w3 /\
    workoutState w3 = mkWorkoutState true 0 1 89 false.
Proof.
  cbn zeta.
  destruct (remote_close_leaves_the_rest_timer
              (world_of (handleTrainerAction (Sample.render [Sample.squat] 0)
                           (Some "finish_set") (Sample.started [Sample.squat])))
              1 90 [Sample.plank] 8)
    as (w1 & w2 & w3 & Hc & _ & _ & Hh & _ & _ & _ & Hs & _ & Ht & Hw3).
  - reflexivity.
  - lia.
  - exists w1, w2, w3. split; [exact Hc|]. split; [exact Hh|]. split; [exact Hs|].
    split; [exact Ht|exact Hw3].
Defined.
